(** * aoa_udf.c : angle-of-attack sweep UDF

    A shallow embedding of the Fluent user-defined functions of
    [aoa_udf.c] and the properties of its force reduction and of its
    results ledger.

    Numbers.  Fluent's [real] (and C's [double]) is modelled by the
    real numbers [R]: sums, products and quotients are exact, [cos] and
    [sin] are the mathematical functions, rounding is not modelled.

    State.  The two [static] variables of the file, the content of
    [aoa_results.txt] and the text sent to the console with [Message]
    are the fields of one record that every function takes and gives
    back.  What an invocation finds around it (the content of
    [aoa.txt], whether [aoa_results.txt] can be opened, the solver's
    domain) is an [Env]. *)

From Stdlib Require Import Reals Lra QArith Qreals ZArith List String Ascii Bool.
Import ListNotations.

Open Scope R_scope.

(** ** Vectors and rows *)

(** [real v[ND_ND]], in the three-dimensional build ([ND_ND = 3]):
    the source reads and writes the components 0, 1 and 2. *)
Record Vec : Type := mkVec { v0 : R; v1 : R; v2 : R }.

(** The fourteen values that one invocation prints, in the order of the
    two format strings. *)
Record ResultRow : Type := mkRow {
  r_AoA : R;
  r_Fx : R; r_Fy : R; r_Fz : R;
  r_Fd : R; r_Fl : R; r_Cd : R; r_Cl : R;
  r_Mx : R; r_My : R; r_Mz : R;
  r_Cmx : R; r_Cmy : R; r_Cmz : R
}.

(** A line of [aoa_results.txt]: the header text, or one data line.  The
    rendering of a number by [%g] is not modelled, a data line carries the
    values given to [fprintf]. *)
Inductive Line : Type :=
| Header : Line
| Data : ResultRow -> Line.

Definition header_text : string :=
  "AoA_deg	Fx[N]	Fy[N]	Fz[N]	Fd[N]	Fl[N]	Cd	Cl	Mx[Nm]	My[Nm]	Mz[Nm]	Cmx	Cmy	Cmz".

Definition is_header (l : Line) : bool :=
  match l with Header => true | Data _ => false end.

(** The two calls of [Message] of the file. *)
Inductive Msg : Type :=
| MsgZoneNotFound : Z -> Msg      (* "aoa_udf: ERROR - zone id %d not found. ..." *)
| MsgSummary : ResultRow -> Msg.  (* "AoA %g deg: Fx=%g ..." *)

Definition is_error_msg (m : Msg) : bool :=
  match m with MsgZoneNotFound _ => true | MsgSummary _ => false end.

(** ** The macros of the USER EDITS block *)

Record Macros : Type := mkMacros {
  SURFACE_ZONE_ID : Z;
  UINF : R;
  RHO : R;
  AREF : R;
  LREF : R
}.

(** The values of the file as it stands. *)
Definition source_macros : Macros :=
  {| SURFACE_ZONE_ID := 5; UINF := 16.0; RHO := 1.225; AREF := 0.4; LREF := 0.435 |}.

(** [#define PI 3.14159265358979323846].  This is the macro of the file,
    a decimal constant: it hides [Rtrigo1.PI] from here on. *)
Definition PI : R := 3.14159265358979323846.

(** ** State *)

Record State : Type := mkState {
  aoa_deg : R;                  (* static real aoa_deg = 0.0 *)
  header_written : Z;           (* static int header_written = 0 *)
  aoa_results_txt : list Line;  (* content of aoa_results.txt *)
  console : list Msg            (* output of Message, oldest first *)
}.

(** The state of a process that has just loaded the library: both statics
    have their initial value, the ledger file is whatever is on disk. *)
Definition process_start (ledger : list Line) : State :=
  {| aoa_deg := 0.0; header_written := 0; aoa_results_txt := ledger; console := [] |}.

Definition set_aoa_deg (v : R) (s : State) : State :=
  {| aoa_deg := v; header_written := header_written s;
     aoa_results_txt := aoa_results_txt s; console := console s |}.

Definition set_header_written (z : Z) (s : State) : State :=
  {| aoa_deg := aoa_deg s; header_written := z;
     aoa_results_txt := aoa_results_txt s; console := console s |}.

(** [fprintf(fp, ...)] on a stream opened with mode ["a"]. *)
Definition fprintf (l : Line) (s : State) : State :=
  {| aoa_deg := aoa_deg s; header_written := header_written s;
     aoa_results_txt := aoa_results_txt s ++ [l]; console := console s |}.

Definition Message (m : Msg) (s : State) : State :=
  {| aoa_deg := aoa_deg s; header_written := header_written s;
     aoa_results_txt := aoa_results_txt s; console := console s ++ [m] |}.

(** ** Divisions

    A quotient is computed together with the list of the divisors used, so
    that a statement can say which divisions a branch evaluates. *)

Definition Logged (A : Type) : Type := (A * list R)%type.

Definition ret {A : Type} (a : A) : Logged A := (a, []).

Definition bind {A B : Type} (m : Logged A) (f : A -> Logged B) : Logged B :=
  let (a, l) := m in let (b, l') := f a in (b, l ++ l').

Definition divide (x y : R) : Logged R := (x / y, [y]).

Notation "x <- m ;; k" := (bind m (fun x => k))
  (at level 61, m at next level, right associativity).

(** The five coefficients of step 7. *)
Record Coeffs : Type := mkCoeffs { Cd : R; Cl : R; Cmx : R; Cmy : R; Cmz : R }.

(** ** A scanner for decimal tokens

    [fscanf(fp, "%lf", &tmp)] belongs to the C library and is a parameter
    of the development.  [fscanf_decimal] is one scanner, for the tokens
    the sweep journal writes: blanks, a sign, digits and a fraction. *)

Definition isspace (c : ascii) : bool :=
  let n := nat_of_ascii c in
  (Nat.eqb n 32 || (Nat.leb 9 n && Nat.leb n 13))%bool.

Definition digit_of (c : ascii) : option Z :=
  let n := Z.of_nat (nat_of_ascii c) in
  if ((48 <=? n)%Z && (n <=? 57)%Z)%bool then Some (n - 48)%Z else None.

Fixpoint skip_space (s : string) : string :=
  match s with
  | String c r => if isspace c then skip_space r else s
  | EmptyString => s
  end.

Fixpoint scan_digits (acc : Z) (n : nat) (s : string) : Z * nat * string :=
  match s with
  | String c r =>
      match digit_of c with
      | Some d => scan_digits (10 * acc + d)%Z (S n) r
      | None => (acc, n, s)
      end
  | EmptyString => (acc, n, s)
  end.

Definition scan_decimal (s : string) : option Q :=
  let s0 := skip_space s in
  let '(neg, s1) :=
    match s0 with
    | String "-"%char r => (true, r)
    | String "+"%char r => (false, r)
    | _ => (false, s0)
    end in
  let '(ip, ni, s2) := scan_digits 0 0 s1 in
  let '(m, nf, _) :=
    match s2 with
    | String "."%char r => scan_digits ip 0 r
    | _ => (ip, 0%nat, s2)
    end in
  if Nat.eqb (ni + nf) 0 then None
  else
    let q := Qred (Qmake m (Z.to_pos (10 ^ Z.of_nat nf))) in
    Some (if neg then Qopp q else q).

Definition fscanf_decimal (s : string) : option R :=
  option_map Q2R (scan_decimal s).

(** ** The solver and the files around an invocation *)

(** [Get_Domain(1)] with the two solver calls the file makes on it, for a
    type [Thread] of zones: [Lookup_Thread] gives [None] for [NULL];
    [Compute_Force_And_Moment] fills [force] and [moment] for a thread and
    a reference point. *)
Record Domain (Thread : Type) : Type := mkDomain {
  Lookup_Thread : Z -> option Thread;
  Compute_Force_And_Moment : Thread -> Vec -> Vec * Vec
}.

Arguments mkDomain {Thread} _ _.
Arguments Lookup_Thread {Thread} _ _.
Arguments Compute_Force_And_Moment {Thread} _ _ _.

(** What one invocation finds: the content of [aoa.txt] ([None] when
    [fopen] fails), whether [fopen("aoa_results.txt", "a")] succeeds, and
    the domain. *)
Record Env (Thread : Type) : Type := mkEnv {
  aoa_txt : option string;
  results_fopen : bool;
  domain : Domain Thread
}.

Arguments mkEnv {Thread} _ _ _.
Arguments aoa_txt {Thread} _.
Arguments results_fopen {Thread} _.
Arguments domain {Thread} _.

(** ** Counting the lines of a ledger *)

Definition count_headers (l : list Line) : nat := List.length (filter is_header l).

(** What an invocation reports of a failure: an error message among the
    messages it printed, or a value other than zero handed back. *)
Definition nonzero_signal (ret : option Z) : Prop :=
  exists z : Z, ret = Some z /\ z <> 0%Z.

Definition failure_reported (printed : list Msg) (ret : option Z) : Prop :=
  existsb is_error_msg printed = true \/ nonzero_signal ret.

(** ** A concrete setting

    A domain whose only wall zone has the id of [source_macros], with the
    zone id as thread, and the solver returning fixed loads. *)

Definition wing_domain (force moment : Vec) : Domain Z :=
  {| Lookup_Thread := fun id => if (id =? 5)%Z then Some id else None;
     Compute_Force_And_Moment := fun _ _ => (force, moment) |}.

(** A domain in which zone 5 does not exist. *)
Definition other_domain (force moment : Vec) : Domain Z :=
  {| Lookup_Thread := fun id => if (id =? 7)%Z then Some id else None;
     Compute_Force_And_Moment := fun _ _ => (force, moment) |}.

Definition sample_force : Vec := {| v0 := 3; v1 := 4; v2 := 0 |}.
Definition sample_moment : Vec := {| v0 := 0; v1 := 0; v2 := 1 |}.

(** [aoa.txt] holds [content], the ledger can be opened, zone 5 exists. *)
Definition env_sweep (content : string) : Env Z :=
  {| aoa_txt := Some content; results_fopen := true;
     domain := wing_domain sample_force sample_moment |}.

(** As [env_sweep], but [aoa_results.txt] cannot be opened. *)
Definition env_unwritable (content : string) : Env Z :=
  {| aoa_txt := Some content; results_fopen := false;
     domain := wing_domain sample_force sample_moment |}.

(** As [env_sweep], but the zone of [SURFACE_ZONE_ID] does not exist. *)
Definition env_no_zone (content : string) : Env Z :=
  {| aoa_txt := Some content; results_fopen := true;
     domain := other_domain sample_force sample_moment |}.

(** [aoa.txt] is missing. *)
Definition env_no_aoa : Env Z :=
  {| aoa_txt := None; results_fopen := true;
     domain := wing_domain sample_force sample_moment |}.

(** Macros edited to a reference area of zero. *)
Definition zero_area_macros : Macros :=
  {| SURFACE_ZONE_ID := 5; UINF := 16.0; RHO := 1.225; AREF := 0.0; LREF := 0.435 |}.

(** Macros edited to a reference length of zero. *)
Definition zero_length_macros : Macros :=
  {| SURFACE_ZONE_ID := 5; UINF := 16.0; RHO := 1.225; AREF := 0.4; LREF := 0.0 |}.

(** ** The functions of the file *)

Section Udf.

(** [Thread] is the solver's type of a zone; [fscanf_lf content] is
    [Some tmp] when [fscanf(fp, "%lf", &tmp)] returns 1 on a file of
    that content and stores [tmp], [None] when it returns anything
    else; [M] gives the macros their values. *)
Variable Thread : Type.
Variable fscanf_lf : string -> option R.
Variable M : Macros.

(** [static void read_aoa_from_file(void)] *)
Definition read_aoa_from_file (e : Env Thread) (s : State) : State :=
  match aoa_txt e with
  | Some content =>
      match fscanf_lf content with
      | Some tmp => set_aoa_deg tmp s
      | None => s
      end
  | None => s
  end.

(** Step 5 of [compute_forces_and_write]. *)
Definition drag (a_rad Fx Fy : R) : R := Fx * cos a_rad + Fy * sin a_rad.

Definition lift (a_rad Fx Fy : R) : R := - Fx * sin a_rad + Fy * cos a_rad.

(** Step 6. *)
Definition qinf : R := 0.5 * RHO M * UINF M * UINF M.

(** Step 7. *)
Definition coefficients (Fd Fl Mx My Mz : R) : Logged Coeffs :=
  if Req_dec_T (qinf * AREF M) 0.0 then
    ret {| Cd := 0.0; Cl := 0.0; Cmx := 0.0; Cmy := 0.0; Cmz := 0.0 |}
  else
    cd <- divide Fd (qinf * AREF M) ;;
    cl <- divide Fl (qinf * AREF M) ;;
    cmx <- divide Mx (qinf * AREF M * LREF M) ;;
    cmy <- divide My (qinf * AREF M * LREF M) ;;
    cmz <- divide Mz (qinf * AREF M * LREF M) ;;
    ret {| Cd := cd; Cl := cl; Cmx := cmx; Cmy := cmy; Cmz := cmz |}.

(** Step 3: the reference point of the moments. *)
Definition cg : Vec := {| v0 := 0.25 * LREF M; v1 := 0.0; v2 := 0.0 |}.

(** Steps 4 to 7: the values printed for a cached angle and a thread. *)
Definition result_row (aoa : R) (d : Domain Thread) (t_airfoil : Thread) : ResultRow :=
  let a_rad := aoa * PI / 180.0 in
  let (force, moment) := Compute_Force_And_Moment d t_airfoil cg in
  let Fx := v0 force in
  let Fy := v1 force in
  let Fz := v2 force in
  let Mx := v0 moment in
  let My := v1 moment in
  let Mz := v2 moment in
  let Fd := drag a_rad Fx Fy in
  let Fl := lift a_rad Fx Fy in
  let c := fst (coefficients Fd Fl Mx My Mz) in
  {| r_AoA := aoa;
     r_Fx := Fx; r_Fy := Fy; r_Fz := Fz;
     r_Fd := Fd; r_Fl := Fl; r_Cd := Cd c; r_Cl := Cl c;
     r_Mx := Mx; r_My := My; r_Mz := Mz;
     r_Cmx := Cmx c; r_Cmy := Cmy c; r_Cmz := Cmz c |}.

(** Step 8: the block guarded by [fp != NULL]. *)
Definition write_results (row : ResultRow) (s : State) : State :=
  let s1 :=
    if (header_written s =? 0)%Z
    then set_header_written 1 (fprintf Header s)
    else s in
  fprintf (Data row) s1.

(** [DEFINE_ON_DEMAND(compute_forces_and_write)].  The function is
    [void]: the second component is the value handed back to whoever
    executes it, [None] at both exits. *)
Definition compute_forces_and_write (e : Env Thread) (s : State) : State * option Z :=
  let d := domain e in
  let s1 := read_aoa_from_file e s in
  match Lookup_Thread d (SURFACE_ZONE_ID M) with
  | None => (Message (MsgZoneNotFound (SURFACE_ZONE_ID M)) s1, None)
  | Some t_airfoil =>
      let row := result_row (aoa_deg s1) d t_airfoil in
      let s2 := if results_fopen e then write_results row s1 else s1 in
      (Message (MsgSummary row) s2, None)
  end.

(** The effect of an invocation on the state. *)
Definition on_demand (e : Env Thread) (s : State) : State :=
  fst (compute_forces_and_write e s).

(** [DEFINE_PROFILE(inlet_U_profile, thread, index)], for the faces of the
    boundary thread the solver passes: the new state, and the value stored
    in [F_PROFILE] for each face of the loop. *)
Definition inlet_U_profile (e : Env Thread) (faces : list Z) (s : State)
  : State * list (Z * R) :=
  let s1 := read_aoa_from_file e s in
  let a_rad := aoa_deg s1 * PI / 180.0 in
  let ux := UINF M * cos a_rad in
  (s1, map (fun f => (f, ux)) faces).

(** [DEFINE_PROFILE(inlet_V_profile, thread, index)] *)
Definition inlet_V_profile (e : Env Thread) (faces : list Z) (s : State)
  : State * list (Z * R) :=
  let s1 := read_aoa_from_file e s in
  let a_rad := aoa_deg s1 * PI / 180.0 in
  let uy := UINF M * sin a_rad in
  (s1, map (fun f => (f, uy)) faces).

(** The calls the solver makes into the library, each with what the call
    finds around it. *)
Inductive Call : Type :=
| Inlet_U : Env Thread -> list Z -> Call
| Inlet_V : Env Thread -> list Z -> Call
| On_demand : Env Thread -> Call.

Definition step (c : Call) (s : State) : State :=
  match c with
  | Inlet_U e faces => fst (inlet_U_profile e faces s)
  | Inlet_V e faces => fst (inlet_V_profile e faces s)
  | On_demand e => on_demand e s
  end.

(** A sequence of calls in one process. *)
Fixpoint run (cs : list Call) (s : State) : State :=
  match cs with
  | [] => s
  | c :: cs' => run cs' (step c s)
  end.

(** A process: the library is loaded with [ledger] on disk, then the
    calls [cs] are made. *)
Definition process (cs : list Call) (ledger : list Line) : State :=
  run cs (process_start ledger).

(** An invocation appends when it finds the zone and opens the ledger. *)
Definition appends (e : Env Thread) : bool :=
  match Lookup_Thread (domain e) (SURFACE_ZONE_ID M) with
  | None => false
  | Some _ => results_fopen e
  end.

Definition is_reduction (c : Call) : bool :=
  match c with On_demand _ => true | _ => false end.

Definition call_appends (c : Call) : bool :=
  match c with On_demand e => appends e | _ => false end.

(** An invocation aborts when it does not find the zone. *)
Definition aborts (e : Env Thread) : bool :=
  match Lookup_Thread (domain e) (SURFACE_ZONE_ID M) with
  | None => true
  | Some _ => false
  end.

Definition call_aborts (c : Call) : bool :=
  match c with On_demand e => aborts e | _ => false end.

(** Processes one after the other on the same ledger file: each starts
    with the statics at their initial values and finds the file as the
    process before left it. *)
Fixpoint sessions (css : list (list Call)) (ledger : list Line) : list Line :=
  match css with
  | [] => ledger
  | cs :: css' => sessions css' (aoa_results_txt (process cs ledger))
  end.

(** The angle an invocation of the sweep reads: the ledger opens, the
    zone is there and [aoa.txt] holds the number [a]. *)
Definition reads_angle (e : Env Thread) (a : R) : Prop :=
  appends e = true /\
  exists content, aoa_txt e = Some content /\ fscanf_lf content = Some a.

(** [produces e s row]: the invocation of [compute_forces_and_write] in
    [e] from [s] prints the summary of [row] as its one message and, when
    the ledger opens, leaves [row] as the last line of the ledger. *)
Definition produces (e : Env Thread) (s : State) (row : ResultRow) : Prop :=
  console (on_demand e s) = console s ++ [MsgSummary row] /\
  (results_fopen e = true ->
   exists lines, aoa_results_txt (on_demand e s) = lines ++ [Data row]).

(** ** Properties *)

(** *** Reading the angle *)

(** The three outcomes of [fopen] and [fscanf]. *)
Ltac read_aoa_cases e :=
  unfold read_aoa_from_file;
  destruct (aoa_txt e) as [content|];
  [destruct (fscanf_lf content) as [tmp|]|].

Lemma read_aoa_header_written (e : Env Thread) (s : State) :
  header_written (read_aoa_from_file e s) = header_written s.
Proof. read_aoa_cases e; reflexivity. Qed.

Lemma read_aoa_ledger (e : Env Thread) (s : State) :
  aoa_results_txt (read_aoa_from_file e s) = aoa_results_txt s.
Proof. read_aoa_cases e; reflexivity. Qed.

Lemma read_aoa_console (e : Env Thread) (s : State) :
  console (read_aoa_from_file e s) = console s.
Proof. read_aoa_cases e; reflexivity. Qed.

(** C6. [read_aoa_from_file] with [aoa.txt] missing, or with a content
    from which [fscanf] stores no number, leaves the whole state as it
    was: the cached angle keeps its value, which is 0.0 in a process that
    has just started, and nothing is printed.  When [fscanf] stores a
    number, the cached angle becomes that number and nothing else
    changes; nothing is printed either. *)
Theorem read_aoa_keeps_or_updates (e : Env Thread) (s : State) :
  ((aoa_txt e = None \/
    exists content, aoa_txt e = Some content /\ fscanf_lf content = None) ->
   read_aoa_from_file e s = s /\
   forall ledger,
     aoa_deg (read_aoa_from_file e (process_start ledger)) = 0.0) /\
  (forall content tmp,
     aoa_txt e = Some content -> fscanf_lf content = Some tmp ->
     read_aoa_from_file e s = set_aoa_deg tmp s /\
     aoa_deg (read_aoa_from_file e s) = tmp) /\
  console (read_aoa_from_file e s) = console s.
Proof.
  split; [|split].
  - intros [Hnone | [content [Hc Hscan]]]; unfold read_aoa_from_file.
    + rewrite Hnone. split; [reflexivity | intros; reflexivity].
    + rewrite Hc, Hscan. split; [reflexivity | intros; reflexivity].
  - intros content tmp Hc Hscan. unfold read_aoa_from_file.
    rewrite Hc, Hscan. split; reflexivity.
  - apply read_aoa_console.
Qed.

(** *** The row of an invocation *)

Lemma on_demand_found (e : Env Thread) (s : State) (t : Thread) :
  Lookup_Thread (domain e) (SURFACE_ZONE_ID M) = Some t ->
  let s1 := read_aoa_from_file e s in
  let row := result_row (aoa_deg s1) (domain e) t in
  compute_forces_and_write e s =
    (Message (MsgSummary row) (if results_fopen e then write_results row s1 else s1),
     None).
Proof.
  intros H. unfold compute_forces_and_write. rewrite H. reflexivity.
Qed.

Lemma on_demand_not_found (e : Env Thread) (s : State) :
  Lookup_Thread (domain e) (SURFACE_ZONE_ID M) = None ->
  compute_forces_and_write e s =
    (Message (MsgZoneNotFound (SURFACE_ZONE_ID M)) (read_aoa_from_file e s), None).
Proof.
  intros H. unfold compute_forces_and_write. rewrite H. reflexivity.
Qed.

Lemma write_results_aoa (row : ResultRow) (s : State) :
  aoa_deg (write_results row s) = aoa_deg s.
Proof.
  unfold write_results. destruct (header_written s =? 0)%Z; reflexivity.
Qed.

Lemma write_results_console (row : ResultRow) (s : State) :
  console (write_results row s) = console s.
Proof.
  unfold write_results. destruct (header_written s =? 0)%Z; reflexivity.
Qed.

Lemma write_results_last (row : ResultRow) (s : State) :
  exists lines, aoa_results_txt (write_results row s) = lines ++ [Data row].
Proof.
  unfold write_results. destruct (header_written s =? 0)%Z; simpl.
  - exists (aoa_results_txt s ++ [Header]). reflexivity.
  - exists (aoa_results_txt s). reflexivity.
Qed.

(** An invocation that finds the zone produces the row of [result_row] at
    the angle it has just read. *)
Lemma on_demand_produces (e : Env Thread) (s : State) (t : Thread) :
  Lookup_Thread (domain e) (SURFACE_ZONE_ID M) = Some t ->
  produces e s (result_row (aoa_deg (read_aoa_from_file e s)) (domain e) t) /\
  aoa_deg (on_demand e s) = aoa_deg (read_aoa_from_file e s).
Proof.
  intros H. unfold produces, on_demand. rewrite (on_demand_found e s t H). simpl.
  destruct (results_fopen e).
  - rewrite write_results_console, read_aoa_console, write_results_aoa.
    repeat split. intros _. apply write_results_last.
  - rewrite read_aoa_console. repeat split. intros Hf. discriminate Hf.
Qed.

(** *** The reduction *)

Lemma coefficients_regular (Fd Fl Mx My Mz : R) :
  qinf * AREF M <> 0 ->
  coefficients Fd Fl Mx My Mz =
    ({| Cd := Fd / (qinf * AREF M); Cl := Fl / (qinf * AREF M);
        Cmx := Mx / (qinf * AREF M * LREF M);
        Cmy := My / (qinf * AREF M * LREF M);
        Cmz := Mz / (qinf * AREF M * LREF M) |},
     [qinf * AREF M; qinf * AREF M;
      qinf * AREF M * LREF M; qinf * AREF M * LREF M; qinf * AREF M * LREF M]).
Proof.
  intros Hne. unfold coefficients.
  destruct (Req_dec_T (qinf * AREF M) 0.0) as [Heq | _].
  - exfalso. apply Hne. lra.
  - reflexivity.
Qed.

Lemma coefficients_degenerate (Fd Fl Mx My Mz : R) :
  qinf * AREF M = 0 ->
  coefficients Fd Fl Mx My Mz =
    ({| Cd := 0.0; Cl := 0.0; Cmx := 0.0; Cmy := 0.0; Cmz := 0.0 |}, []).
Proof.
  intros Hz. unfold coefficients.
  destruct (Req_dec_T (qinf * AREF M) 0.0) as [_ | Hne].
  - reflexivity.
  - exfalso. apply Hne. lra.
Qed.

(** C1. For every cached angle and every force the solver returns, the
    invocation that finds the zone produces a row whose angle is the
    cached [aoa_deg], whose [Fx], [Fy], [Fz] are the solver's, and whose
    drag and lift are [Fx cos a + Fy sin a] and [- Fx sin a + Fy cos a] at
    [a = aoa_deg * PI / 180] (with [PI] the macro of the file). *)
Theorem wind_axes_decomposition (e : Env Thread) (s : State) (t : Thread) :
  Lookup_Thread (domain e) (SURFACE_ZONE_ID M) = Some t ->
  let a := aoa_deg (on_demand e s) * PI / 180 in
  let force := fst (Compute_Force_And_Moment (domain e) t cg) in
  exists row,
    produces e s row /\
    r_AoA row = aoa_deg (on_demand e s) /\
    r_Fx row = v0 force /\ r_Fy row = v1 force /\ r_Fz row = v2 force /\
    r_Fd row = v0 force * cos a + v1 force * sin a /\
    r_Fl row = - v0 force * sin a + v1 force * cos a.
Proof.
  intros H a force.
  destruct (on_demand_produces e s t H) as [Hp Ha].
  exists (result_row (aoa_deg (read_aoa_from_file e s)) (domain e) t).
  split; [exact Hp|].
  subst a force. rewrite Ha. unfold result_row, drag, lift.
  destruct (Compute_Force_And_Moment (domain e) t cg) as [force moment]; simpl.
  replace 180.0 with 180 by lra.
  repeat split.
Qed.

(** C2. With [qinf * AREF] other than zero, the dynamic pressure is
    [0.5 * RHO * UINF^2] of the macros and the row produced has
    [Cd = Fd / (q Aref)], [Cl = Fl / (q Aref)] and
    [Cmx, Cmy, Cmz = Mx, My, Mz / (q Aref Lref)], with [Mx], [My], [Mz]
    the moment the solver returns. *)
Theorem coefficients_of_row (e : Env Thread) (s : State) (t : Thread) :
  Lookup_Thread (domain e) (SURFACE_ZONE_ID M) = Some t ->
  qinf * AREF M <> 0 ->
  let q := 0.5 * RHO M * (UINF M) ^ 2 in
  let moment := snd (Compute_Force_And_Moment (domain e) t cg) in
  qinf = q /\
  exists row,
    produces e s row /\
    r_Mx row = v0 moment /\ r_My row = v1 moment /\ r_Mz row = v2 moment /\
    r_Cd row = r_Fd row / (q * AREF M) /\
    r_Cl row = r_Fl row / (q * AREF M) /\
    r_Cmx row = r_Mx row / (q * AREF M * LREF M) /\
    r_Cmy row = r_My row / (q * AREF M * LREF M) /\
    r_Cmz row = r_Mz row / (q * AREF M * LREF M).
Proof.
  intros H Hne q moment.
  assert (Hq : qinf = q) by (unfold qinf, q; ring).
  split; [exact Hq|].
  destruct (on_demand_produces e s t H) as [Hp _].
  exists (result_row (aoa_deg (read_aoa_from_file e s)) (domain e) t).
  split; [exact Hp|].
  subst moment. unfold result_row.
  destruct (Compute_Force_And_Moment (domain e) t cg) as [force moment].
  rewrite coefficients_regular by exact Hne. simpl. rewrite Hq.
  repeat split.
Qed.

(** C3. With [qinf * AREF] equal to zero, as when [AREF] is zero, step 7
    evaluates no division at all, for any forces and moments, and the row
    is produced all the same, with [Cd], [Cl], [Cmx], [Cmy] and [Cmz]
    equal to zero. *)
Theorem degenerate_denominator (e : Env Thread) (s : State) (t : Thread) :
  Lookup_Thread (domain e) (SURFACE_ZONE_ID M) = Some t ->
  qinf * AREF M = 0 ->
  (forall Fd Fl Mx My Mz, snd (coefficients Fd Fl Mx My Mz) = []) /\
  exists row,
    produces e s row /\
    r_Cd row = 0 /\ r_Cl row = 0 /\
    r_Cmx row = 0 /\ r_Cmy row = 0 /\ r_Cmz row = 0.
Proof.
  intros H Hz. split.
  - intros. rewrite coefficients_degenerate by exact Hz. reflexivity.
  - destruct (on_demand_produces e s t H) as [Hp _].
    exists (result_row (aoa_deg (read_aoa_from_file e s)) (domain e) t).
    split; [exact Hp|].
    unfold result_row.
    destruct (Compute_Force_And_Moment (domain e) t cg) as [force moment].
    rewrite coefficients_degenerate by exact Hz. simpl.
    repeat split; lra.
Qed.

Lemma AREF_zero_degenerate : AREF M = 0 -> qinf * AREF M = 0.
Proof. intros H. rewrite H. ring. Qed.

(** The test of step 7 looks at [qinf * AREF] only: with [LREF] zero and
    [qinf * AREF] not zero, the three moment coefficients are divided by
    zero. *)
Remark moment_divisor_not_tested (Fd Fl Mx My Mz : R) :
  qinf * AREF M <> 0 -> LREF M = 0 ->
  In 0 (snd (coefficients Fd Fl Mx My Mz)).
Proof.
  intros Hne HL. rewrite coefficients_regular by exact Hne. simpl.
  right. right. left. rewrite HL. ring.
Qed.

Lemma rotation_preserves_norm (a Fx Fy : R) :
  (drag a Fx Fy) ^ 2 + (lift a Fx Fy) ^ 2 = Fx ^ 2 + Fy ^ 2.
Proof.
  unfold drag, lift.
  replace ((Fx * cos a + Fy * sin a) ^ 2 + (- Fx * sin a + Fy * cos a) ^ 2)
    with ((Fx ^ 2 + Fy ^ 2) * ((sin a)² + (cos a)²)) by (unfold Rsqr; ring).
  rewrite sin2_cos2. ring.
Qed.

(** C9. For every cached angle and every force [(Fx, Fy, Fz)] the
    solver returns, the row produced carries that angle and the solver's
    [Fx] and [Fy], and its drag and lift satisfy
    [Fd^2 + Fl^2 = Fx^2 + Fy^2] for the solver's [Fx] and [Fy], exactly,
    in real arithmetic. *)
Theorem drag_lift_magnitude (e : Env Thread) (s : State) (t : Thread) :
  Lookup_Thread (domain e) (SURFACE_ZONE_ID M) = Some t ->
  let force := fst (Compute_Force_And_Moment (domain e) t cg) in
  exists row,
    produces e s row /\
    r_AoA row = aoa_deg (on_demand e s) /\
    r_Fx row = v0 force /\ r_Fy row = v1 force /\
    (r_Fd row) ^ 2 + (r_Fl row) ^ 2 = (v0 force) ^ 2 + (v1 force) ^ 2.
Proof.
  intros H force.
  destruct (on_demand_produces e s t H) as [Hp Ha].
  exists (result_row (aoa_deg (read_aoa_from_file e s)) (domain e) t).
  split; [exact Hp|].
  subst force. rewrite Ha. unfold result_row.
  destruct (Compute_Force_And_Moment (domain e) t cg) as [force moment].
  cbn [r_AoA r_Fx r_Fy r_Fd r_Fl fst].
  repeat split. apply rotation_preserves_norm.
Qed.

(** *** One invocation and the ledger *)

Lemma on_demand_no_append (e : Env Thread) (s : State) :
  appends e = false ->
  header_written (on_demand e s) = header_written s /\
  aoa_results_txt (on_demand e s) = aoa_results_txt s.
Proof.
  unfold appends, on_demand, compute_forces_and_write.
  destruct (Lookup_Thread (domain e) (SURFACE_ZONE_ID M)) as [t|]; simpl.
  - intros Hf. rewrite Hf.
    now rewrite read_aoa_header_written, read_aoa_ledger.
  - intros _. now rewrite read_aoa_header_written, read_aoa_ledger.
Qed.

Lemma on_demand_first_append (e : Env Thread) (s : State) :
  appends e = true ->
  header_written s = 0%Z ->
  exists row,
    header_written (on_demand e s) = 1%Z /\
    aoa_results_txt (on_demand e s) = aoa_results_txt s ++ [Header; Data row].
Proof.
  unfold appends, on_demand, compute_forces_and_write.
  destruct (Lookup_Thread (domain e) (SURFACE_ZONE_ID M)) as [t|];
    [|discriminate].
  intros Hf Hz. rewrite Hf.
  exists (result_row (aoa_deg (read_aoa_from_file e s)) (domain e) t).
  unfold write_results. rewrite read_aoa_header_written, Hz. simpl.
  rewrite read_aoa_ledger, <- app_assoc. split; reflexivity.
Qed.

Lemma on_demand_later_append (e : Env Thread) (s : State) :
  appends e = true ->
  header_written s <> 0%Z ->
  exists row,
    header_written (on_demand e s) = header_written s /\
    aoa_results_txt (on_demand e s) = aoa_results_txt s ++ [Data row].
Proof.
  unfold appends, on_demand, compute_forces_and_write.
  destruct (Lookup_Thread (domain e) (SURFACE_ZONE_ID M)) as [t|];
    [|discriminate].
  intros Hf Hnz. rewrite Hf.
  exists (result_row (aoa_deg (read_aoa_from_file e s)) (domain e) t).
  unfold write_results. rewrite read_aoa_header_written.
  apply Z.eqb_neq in Hnz. rewrite Hnz. simpl.
  rewrite read_aoa_header_written, read_aoa_ledger. split; reflexivity.
Qed.

(** *** Sequences of calls *)

(** The profile functions refresh the cached angle and nothing else. *)
Lemma step_profile (c : Call) (s : State) :
  is_reduction c = false ->
  header_written (step c s) = header_written s /\
  aoa_results_txt (step c s) = aoa_results_txt s /\
  console (step c s) = console s.
Proof.
  destruct c as [e faces | e faces | e]; simpl; intros Hc;
    [| |discriminate Hc];
    now rewrite read_aoa_header_written, read_aoa_ledger, read_aoa_console.
Qed.

Lemma step_no_append (c : Call) (s : State) :
  call_appends c = false ->
  header_written (step c s) = header_written s /\
  aoa_results_txt (step c s) = aoa_results_txt s.
Proof.
  destruct c as [e faces | e faces | e]; simpl; intros Hc;
    [| |apply on_demand_no_append; exact Hc];
    now rewrite read_aoa_header_written, read_aoa_ledger.
Qed.

Lemma step_appends (c : Call) :
  call_appends c = true -> exists e, c = On_demand e /\ appends e = true.
Proof.
  destruct c as [e faces | e faces | e]; simpl; intros Hc;
    [discriminate Hc | discriminate Hc | exists e; split; [reflexivity | exact Hc]].
Qed.

Lemma profile_no_append (c : Call) :
  is_reduction c = false -> call_appends c = false.
Proof.
  destruct c; simpl; [reflexivity | reflexivity | discriminate].
Qed.

Lemma run_app (cs cs' : list Call) (s : State) :
  run (cs ++ cs') s = run cs' (run cs s).
Proof.
  revert s. induction cs as [|c cs IH]; intros s; simpl; [reflexivity | apply IH].
Qed.

Lemma run_no_append (cs : list Call) (s : State) :
  Forall (fun c => call_appends c = false) cs ->
  header_written (run cs s) = header_written s /\
  aoa_results_txt (run cs s) = aoa_results_txt s.
Proof.
  intros HF. revert s.
  induction HF as [|c cs Hc _ IH]; intros s; simpl; [split; reflexivity|].
  destruct (step_no_append c s Hc) as [Hh Hl].
  destruct (IH (step c s)) as [Hh' Hl'].
  rewrite Hh', Hl', Hh, Hl. split; reflexivity.
Qed.

(** Once the flag is set, a run appends data lines only, one for each
    call that appends, and the flag keeps its value. *)
Lemma run_flag_set (cs : list Call) (s : State) :
  header_written s <> 0%Z ->
  exists rows,
    List.length rows = List.length (filter call_appends cs) /\
    header_written (run cs s) = header_written s /\
    aoa_results_txt (run cs s) = aoa_results_txt s ++ map Data rows.
Proof.
  revert s. induction cs as [|c cs IH]; intros s Hnz; simpl.
  - exists []. simpl. rewrite app_nil_r. repeat split.
  - destruct (call_appends c) eqn:Happ.
    + destruct (step_appends c Happ) as [e [-> He]]. simpl step.
      destruct (on_demand_later_append e s He Hnz) as [row [Hh Hl]].
      destruct (IH (on_demand e s)) as [rows [Hn [Hh' Hl']]];
        [rewrite Hh; exact Hnz|].
      exists (row :: rows). simpl.
      rewrite Hn, Hh', Hl', Hh, Hl, <- app_assoc. repeat split.
    + destruct (step_no_append c s Happ) as [Hh Hl].
      destruct (IH (step c s)) as [rows [Hn [Hh' Hl']]];
        [rewrite Hh; exact Hnz|].
      exists rows. rewrite Hn, Hh', Hl', Hh, Hl. repeat split.
Qed.

(** From an unset flag, a run appends nothing when no call appends, and
    otherwise the header followed by data lines only, one for each call
    that appends. *)
Lemma run_flag_unset (cs : list Call) (s : State) :
  header_written s = 0%Z ->
  exists rows,
    List.length rows = List.length (filter call_appends cs) /\
    header_written (run cs s) = (if existsb call_appends cs then 1 else 0)%Z /\
    aoa_results_txt (run cs s) =
      aoa_results_txt s ++
      (if existsb call_appends cs then Header :: map Data rows else []).
Proof.
  revert s. induction cs as [|c cs IH]; intros s Hz; simpl.
  - exists []. simpl. rewrite app_nil_r. repeat split. exact Hz.
  - destruct (call_appends c) eqn:Happ; simpl.
    + destruct (step_appends c Happ) as [e [-> He]]. simpl step.
      destruct (on_demand_first_append e s He Hz) as [row [Hh Hl]].
      destruct (run_flag_set cs (on_demand e s)) as [rows [Hn [Hh' Hl']]];
        [rewrite Hh; discriminate|].
      exists (row :: rows). simpl.
      rewrite Hn, Hh', Hl', Hh, Hl, <- app_assoc. repeat split.
    + destruct (step_no_append c s Happ) as [Hh Hl].
      destruct (IH (step c s)) as [rows [Hn [Hh' Hl']]];
        [rewrite Hh; exact Hz|].
      exists rows. rewrite Hn, Hh', Hl', Hl. repeat split.
Qed.

Lemma existsb_call_appends_app (cs cs' : list Call) :
  existsb call_appends (cs ++ cs') =
    (existsb call_appends cs || existsb call_appends cs')%bool.
Proof. apply existsb_app. Qed.

Lemma no_append_existsb (cs : list Call) :
  Forall (fun c => call_appends c = false) cs ->
  existsb call_appends cs = false.
Proof.
  induction 1 as [|c cs Hc _ IH]; simpl; [reflexivity|].
  rewrite Hc, IH. reflexivity.
Qed.

Lemma profiles_no_append (cs : list Call) :
  Forall (fun c => is_reduction c = false) cs ->
  Forall (fun c => call_appends c = false) cs.
Proof.
  intros H. eapply Forall_impl; [|exact H].
  intros c Hc. apply profile_no_append, Hc.
Qed.

Lemma count_headers_app (l l' : list Line) :
  count_headers (l ++ l') = (count_headers l + count_headers l')%nat.
Proof.
  unfold count_headers. rewrite filter_app, length_app. reflexivity.
Qed.

Lemma count_headers_data (rows : list ResultRow) :
  count_headers (map Data rows) = 0%nat.
Proof.
  unfold count_headers. induction rows as [|r rows IH]; simpl; [reflexivity | exact IH].
Qed.

Lemma fopen_failed_no_append (e : Env Thread) :
  results_fopen e = false -> appends e = false.
Proof.
  intros Hf. unfold appends. rewrite Hf.
  destruct (Lookup_Thread (domain e) (SURFACE_ZONE_ID M)); reflexivity.
Qed.

(** C4. In a process whose first invocation of the reduction writes a
    data row (it finds the zone and opens the ledger), whatever the ledger file
    [pre] holds when the process starts and whatever profile calls come
    before: the first invocation writes the header and then its data
    line; no later call of the process writes a line that is a header;
    and the process adds exactly one header to the file. *)
Theorem header_once_per_process
    (inlet : list Call) (e1 : Env Thread) (rest : list Call) (pre : list Line) :
  Forall (fun c => is_reduction c = false) inlet ->
  appends e1 = true ->
  let s0 := process inlet pre in
  let s1 := on_demand e1 s0 in
  aoa_results_txt s0 = pre /\
  (exists row, aoa_results_txt s1 = pre ++ [Header; Data row]) /\
  (forall before c after,
     rest = before ++ c :: after ->
     let s := run before s1 in
     exists lines,
       aoa_results_txt (step c s) = aoa_results_txt s ++ lines /\
       existsb is_header lines = false) /\
  count_headers (aoa_results_txt (process (inlet ++ On_demand e1 :: rest) pre)) =
    (count_headers pre + 1)%nat.
Proof.
  intros Hinlet Happ s0 s1.
  destruct (run_no_append inlet (process_start pre) (profiles_no_append _ Hinlet))
    as [Hh0 Hl0].
  fold (process inlet pre) in Hh0, Hl0. fold s0 in Hh0, Hl0. simpl in Hh0, Hl0.
  destruct (on_demand_first_append e1 s0 Happ Hh0) as [row [Hh Hl]].
  fold s1 in Hh, Hl.
  split; [exact Hl0|].
  split; [exists row; rewrite Hl, Hl0; reflexivity|]. split.
  - intros before c after _ s.
    assert (Hs : header_written s <> 0%Z).
    { unfold s. destruct (run_flag_set before s1) as [rows [_ [Hh' _]]].
      - rewrite Hh. discriminate.
      - rewrite Hh', Hh. discriminate. }
    destruct (call_appends c) eqn:Hc.
    + destruct (step_appends c Hc) as [e [-> He]]. simpl step.
      destruct (on_demand_later_append e s He Hs) as [r [_ Hl']].
      exists [Data r]. split; [exact Hl' | reflexivity].
    + destruct (step_no_append c s Hc) as [_ Hl'].
      exists []. rewrite app_nil_r. split; [exact Hl' | reflexivity].
  - unfold process.
    destruct (run_flag_unset (inlet ++ On_demand e1 :: rest) (process_start pre) eq_refl)
      as [rows [_ [_ Hl']]].
    rewrite existsb_call_appends_app in Hl'. simpl existsb in Hl'.
    rewrite Happ in Hl'. simpl orb in Hl'. rewrite orb_true_r in Hl'.
    rewrite Hl'. simpl aoa_results_txt.
    rewrite count_headers_app.
    change (Header :: map Data rows) with ([Header] ++ map Data rows).
    rewrite count_headers_app, count_headers_data. reflexivity.
Qed.

(** C5, as the code has it. A process writes the header at most once,
    just before the first data line it appends, whatever the ledger file
    holds when the process starts: the lines it adds to [pre] are none
    when no call appends, and otherwise the header followed by one data
    line for each call that appends.  A file that is empty at process
    start so gets one header, as its first line; a file that is not empty
    gets one more header. *)
Theorem header_per_process_not_per_file (cs : list Call) (pre : list Line) :
  exists rows,
    List.length rows = List.length (filter call_appends cs) /\
    aoa_results_txt (process cs pre) =
      pre ++ (if existsb call_appends cs then Header :: map Data rows else []) /\
    count_headers (aoa_results_txt (process cs pre)) =
      (count_headers pre + if existsb call_appends cs then 1 else 0)%nat.
Proof.
  unfold process.
  destruct (run_flag_unset cs (process_start pre) eq_refl) as [rows [Hn [_ Hl]]].
  exists rows. split; [exact Hn|]. split; [exact Hl|].
  rewrite Hl. simpl aoa_results_txt. rewrite count_headers_app.
  destruct (existsb call_appends cs).
  - change (Header :: map Data rows) with ([Header] ++ map Data rows).
    rewrite count_headers_app, count_headers_data. reflexivity.
  - reflexivity.
Qed.

(** C10. The flag changes only in an invocation of the reduction that
    appends from an unset flag, and that invocation writes the header and
    its data line; an invocation whose ledger fails to open leaves the
    flag and the ledger as they were.  So after calls of which none
    appended the flag of the process is still unset and the ledger is
    untouched, and the next invocation that appends writes the header
    immediately before its data line and sets the flag. *)
Theorem flag_set_only_with_header
    (cs : list Call) (e : Env Thread) (pre : list Line) :
  (forall c s,
     header_written (step c s) <> header_written s ->
     exists e0,
       c = On_demand e0 /\ appends e0 = true /\ header_written s = 0%Z /\
       header_written (step c s) = 1%Z /\
       exists row,
         aoa_results_txt (step c s) = aoa_results_txt s ++ [Header; Data row]) /\
  (forall e0 s,
     results_fopen e0 = false ->
     header_written (on_demand e0 s) = header_written s /\
     aoa_results_txt (on_demand e0 s) = aoa_results_txt s) /\
  (Forall (fun c => call_appends c = false) cs ->
   appends e = true ->
   header_written (process cs pre) = 0%Z /\
   aoa_results_txt (process cs pre) = pre /\
   header_written (process (cs ++ [On_demand e]) pre) = 1%Z /\
   exists row,
     aoa_results_txt (process (cs ++ [On_demand e]) pre) = pre ++ [Header; Data row]).
Proof.
  split; [|split].
  - intros c s Hchange.
    destruct (call_appends c) eqn:Hc.
    + destruct (step_appends c Hc) as [e0 [-> He0]]. simpl step in *.
      exists e0. split; [reflexivity|]. split; [exact He0|].
      destruct (Z.eq_dec (header_written s) 0) as [Hz | Hnz].
      * destruct (on_demand_first_append e0 s He0 Hz) as [row [Hh Hl]].
        repeat split; try assumption. exists row. exact Hl.
      * destruct (on_demand_later_append e0 s He0 Hnz) as [row [Hh _]].
        contradiction.
    + destruct (step_no_append c s Hc) as [Hh _]. contradiction.
  - intros e0 s Hf. apply on_demand_no_append, fopen_failed_no_append, Hf.
  - intros Hnone Happ. unfold process.
    destruct (run_no_append cs (process_start pre) Hnone) as [Hh Hl].
    simpl in Hh, Hl. rewrite run_app. simpl.
    destruct (on_demand_first_append e (run cs (process_start pre)) Happ Hh)
      as [row [Hh' Hl']].
    repeat split; try assumption.
    exists row. rewrite Hl', Hl. reflexivity.
Qed.

(** C7, as the code has it. With the zone of [SURFACE_ZONE_ID] not found
    the invocation prints the error message and returns: that message is
    all it prints, the ledger and the header flag are as they were, the
    forces are not computed (the outcome is the same for any
    [Compute_Force_And_Moment]), and no value is handed back. *)
Theorem zone_not_found_aborts (e : Env Thread) (s : State) :
  Lookup_Thread (domain e) (SURFACE_ZONE_ID M) = None ->
  let out := compute_forces_and_write e s in
  console (fst out) = console s ++ [MsgZoneNotFound (SURFACE_ZONE_ID M)] /\
  aoa_results_txt (fst out) = aoa_results_txt s /\
  header_written (fst out) = header_written s /\
  aoa_deg (fst out) = aoa_deg (read_aoa_from_file e s) /\
  snd out = None /\
  forall cfm,
    compute_forces_and_write
      {| aoa_txt := aoa_txt e; results_fopen := results_fopen e;
         domain := {| Lookup_Thread := Lookup_Thread (domain e);
                      Compute_Force_And_Moment := cfm |} |} s = out.
Proof.
  intros H out. unfold out. rewrite (on_demand_not_found e s H). simpl.
  rewrite read_aoa_console, read_aoa_ledger, read_aoa_header_written.
  repeat split.
  intros cfm. rewrite on_demand_not_found by exact H. reflexivity.
Qed.

(** C8, as the code has it. With the zone found and the ledger failing
    to open, the invocation writes nothing to the ledger, leaves the
    header flag as it was and reports no failure: it hands back no value
    and prints the summary of the row only, the very message it prints
    when the ledger opens. *)
Theorem unwritable_ledger_is_silent (e : Env Thread) (s : State) (t : Thread) :
  Lookup_Thread (domain e) (SURFACE_ZONE_ID M) = Some t ->
  results_fopen e = false ->
  let out := compute_forces_and_write e s in
  let row := result_row (aoa_deg (read_aoa_from_file e s)) (domain e) t in
  let ok := compute_forces_and_write
              {| aoa_txt := aoa_txt e; results_fopen := true; domain := domain e |} s in
  console (fst out) = console s ++ [MsgSummary row] /\
  aoa_results_txt (fst out) = aoa_results_txt s /\
  header_written (fst out) = header_written s /\
  snd out = None /\
  ~ failure_reported [MsgSummary row] (snd out) /\
  console (fst ok) = console (fst out) /\ snd ok = snd out.
Proof.
  intros H Hf out row ok.
  set (e_ok := {| aoa_txt := aoa_txt e; results_fopen := true; domain := domain e |}) in ok.
  assert (Hr : read_aoa_from_file e_ok s = read_aoa_from_file e s) by reflexivity.
  assert (Hok : ok = (Message (MsgSummary row)
                        (write_results row (read_aoa_from_file e s)), None)).
  { unfold ok. rewrite (on_demand_found e_ok s t) by exact H.
    rewrite Hr. reflexivity. }
  assert (Hout : out = (Message (MsgSummary row) (read_aoa_from_file e s), None)).
  { unfold out. rewrite (on_demand_found e s t H), Hf. reflexivity. }
  rewrite Hok, Hout.
  cbn [fst snd Message console aoa_results_txt header_written].
  rewrite write_results_console.
  rewrite read_aoa_console, read_aoa_ledger, read_aoa_header_written.
  repeat split.
  intros [Hmsg | [z [Hz _]]]; discriminate.
Qed.

(** ** Further properties of the file *)

(** *** The cached angle across calls *)

Lemma read_aoa_same_file (e e' : Env Thread) (s : State) :
  aoa_txt e' = aoa_txt e ->
  read_aoa_from_file e' (read_aoa_from_file e s) = read_aoa_from_file e s.
Proof.
  intros Hsame. unfold read_aoa_from_file. rewrite Hsame.
  destruct (aoa_txt e) as [content|]; [|reflexivity].
  destruct (fscanf_lf content) as [tmp|]; reflexivity.
Qed.

Lemma read_aoa_number (e : Env Thread) (s : State) (content : string) (tmp : R) :
  aoa_txt e = Some content -> fscanf_lf content = Some tmp ->
  read_aoa_from_file e s = set_aoa_deg tmp s.
Proof.
  intros Hc Hscan. unfold read_aoa_from_file. rewrite Hc, Hscan. reflexivity.
Qed.

Lemma read_aoa_missing (e : Env Thread) (s : State) :
  aoa_txt e = None -> read_aoa_from_file e s = s.
Proof.
  intros Hc. unfold read_aoa_from_file. rewrite Hc. reflexivity.
Qed.

(** X1. Reading twice from an unchanged [aoa.txt] is reading once; and a
    read that stores a number makes the outcome of any read before it
    irrelevant: the state is the one this read alone gives. *)
Theorem read_aoa_last_read_wins (e e' : Env Thread) (s : State) :
  (aoa_txt e' = aoa_txt e ->
   read_aoa_from_file e' (read_aoa_from_file e s) = read_aoa_from_file e s) /\
  (forall content tmp,
     aoa_txt e' = Some content -> fscanf_lf content = Some tmp ->
     read_aoa_from_file e' (read_aoa_from_file e s) = read_aoa_from_file e' s).
Proof.
  split.
  - apply read_aoa_same_file.
  - intros content tmp Hc Hscan.
    rewrite !(read_aoa_number e' _ content tmp Hc Hscan).
    unfold read_aoa_from_file.
    destruct (aoa_txt e) as [c|]; [|reflexivity].
    destruct (fscanf_lf c) as [v|]; reflexivity.
Qed.

Lemma result_row_AoA (aoa : R) (d : Domain Thread) (t : Thread) :
  r_AoA (result_row aoa d t) = aoa.
Proof.
  unfold result_row.
  destruct (Compute_Force_And_Moment d t cg) as [force moment]. reflexivity.
Qed.


(** *** The inlet profiles *)

Lemma inlet_U_values (e : Env Thread) (faces : list Z) (s : State) (f : Z) (u : R) :
  In (f, u) (snd (inlet_U_profile e faces s)) ->
  u = UINF M * cos (aoa_deg (read_aoa_from_file e s) * PI / 180).
Proof.
  unfold inlet_U_profile. simpl. rewrite in_map_iff.
  intros [f' [Heq _]]. inversion Heq; subst. f_equal. f_equal. lra.
Qed.

Lemma inlet_V_values (e : Env Thread) (faces : list Z) (s : State) (f : Z) (v : R) :
  In (f, v) (snd (inlet_V_profile e faces s)) ->
  v = UINF M * sin (aoa_deg (read_aoa_from_file e s) * PI / 180).
Proof.
  unfold inlet_V_profile. simpl. rewrite in_map_iff.
  intros [f' [Heq _]]. inversion Heq; subst. f_equal. f_equal. lra.
Qed.

(** X3. With [aoa.txt] unchanged between the two profile calls, each
    call stores a value for exactly the faces of its thread, in order,
    and on every face the two components have the magnitude of the
    freestream: [U^2 + V^2 = UINF^2], whatever the angle. *)
Theorem inlet_speed_is_UINF (e : Env Thread) (faces : list Z) (s : State) :
  let us := snd (inlet_U_profile e faces s) in
  let s1 := fst (inlet_U_profile e faces s) in
  let vs := snd (inlet_V_profile e faces s1) in
  map fst us = faces /\ map fst vs = faces /\
  forall f f' u v, In (f, u) us -> In (f', v) vs -> u ^ 2 + v ^ 2 = UINF M ^ 2.
Proof.
  intros us s1 vs. split; [|split].
  - unfold us, inlet_U_profile. simpl. rewrite map_map. simpl. apply map_id.
  - unfold vs, inlet_V_profile. simpl. rewrite map_map. simpl. apply map_id.
  - intros f f' u v Hu Hv.
    apply inlet_U_values in Hu. apply inlet_V_values in Hv.
    unfold s1 in Hv. simpl in Hv.
    rewrite (read_aoa_same_file e e s eq_refl) in Hv.
    rewrite Hu, Hv.
    set (a := aoa_deg (read_aoa_from_file e s) * PI / 180).
    replace ((UINF M * cos a) ^ 2 + (UINF M * sin a) ^ 2)
      with (UINF M ^ 2 * ((sin a)² + (cos a)²)) by (unfold Rsqr; ring).
    rewrite sin2_cos2. ring.
Qed.

(** X4. With [aoa.txt] unchanged from the profile calls to the
    reduction, the drag of the row is the component of the force along the
    inlet velocity and the lift the component across it:
    [UINF Fd = Fx U + Fy V] and [UINF Fl = Fy U - Fx V] for the [U] and
    [V] stored on any face, with [Fx] and [Fy] of the row those the
    solver returns. *)
Theorem drag_is_along_inlet_velocity
    (e : Env Thread) (faces : list Z) (s : State) (t : Thread) :
  Lookup_Thread (domain e) (SURFACE_ZONE_ID M) = Some t ->
  let us := snd (inlet_U_profile e faces s) in
  let s1 := fst (inlet_U_profile e faces s) in
  let vs := snd (inlet_V_profile e faces s1) in
  let s2 := fst (inlet_V_profile e faces s1) in
  let force := fst (Compute_Force_And_Moment (domain e) t cg) in
  exists row,
    produces e s2 row /\
    r_Fx row = v0 force /\ r_Fy row = v1 force /\
    forall f f' u v, In (f, u) us -> In (f', v) vs ->
      UINF M * r_Fd row = r_Fx row * u + r_Fy row * v /\
      UINF M * r_Fl row = r_Fy row * u - r_Fx row * v.
Proof.
  intros Hfound us s1 vs s2 force.
  destruct (on_demand_produces e s2 t Hfound) as [Hp _].
  eexists. split; [exact Hp|].
  assert (Hforce : forall a,
            r_Fx (result_row a (domain e) t) = v0 force /\
            r_Fy (result_row a (domain e) t) = v1 force).
  { intros a. unfold force, result_row.
    destruct (Compute_Force_And_Moment (domain e) t cg) as [fo mo].
    split; reflexivity. }
  split; [apply Hforce|]. split; [apply Hforce|]. clear Hforce force.
  intros f f' u v Hu Hv.
  apply inlet_U_values in Hu. apply inlet_V_values in Hv.
  unfold s2, s1 in *. simpl in *.
  rewrite !(read_aoa_same_file e e _ eq_refl) in *.
  rewrite Hu, Hv. unfold result_row.
  destruct (Compute_Force_And_Moment (domain e) t cg) as [force moment]; simpl.
  unfold drag, lift. replace 180.0 with 180 by lra.
  split; ring.
Qed.

(** X16. A process that has just started and finds no [aoa.txt] works
    at the angle 0.0 without a word: the inlet blows along x, [U = UINF]
    and [V = 0] on every face, and the row of the reduction has the angle
    0, the drag [Fx] and the lift [Fy]. *)
Theorem first_run_without_aoa_file
    (e : Env Thread) (faces : list Z) (pre : list Line) :
  aoa_txt e = None ->
  (forall f u, In (f, u) (snd (inlet_U_profile e faces (process_start pre))) ->
               u = UINF M) /\
  (forall f v, In (f, v) (snd (inlet_V_profile e faces (process_start pre))) ->
               v = 0) /\
  (forall t, Lookup_Thread (domain e) (SURFACE_ZONE_ID M) = Some t ->
     exists row,
       produces e (process_start pre) row /\
       r_AoA row = 0 /\ r_Fd row = r_Fx row /\ r_Fl row = r_Fy row).
Proof.
  intros Hmiss.
  assert (Hzero : aoa_deg (read_aoa_from_file e (process_start pre)) * PI / 180 = 0).
  { rewrite (read_aoa_missing e _ Hmiss). simpl. lra. }
  split; [|split].
  - intros f u Hu. apply inlet_U_values in Hu.
    rewrite Hu, Hzero, cos_0. ring.
  - intros f v Hv. apply inlet_V_values in Hv.
    rewrite Hv, Hzero, sin_0. ring.
  - intros t Hfound.
    destruct (on_demand_produces e (process_start pre) t Hfound) as [Hp _].
    eexists. split; [exact Hp|].
    unfold result_row.
    destruct (Compute_Force_And_Moment (domain e) t cg) as [force moment].
    cbn [r_AoA r_Fd r_Fl r_Fx r_Fy]. unfold drag, lift.
    replace (aoa_deg (read_aoa_from_file e (process_start pre)) * PI / 180.0)
      with 0 by (rewrite <- Hzero; lra).
    rewrite cos_0, sin_0, (read_aoa_missing e _ Hmiss). simpl.
    repeat split; lra.
Qed.

(** *** The reduction, further *)

Lemma rotation_inverse (a Fx Fy : R) :
  Fx = drag a Fx Fy * cos a - lift a Fx Fy * sin a /\
  Fy = drag a Fx Fy * sin a + lift a Fx Fy * cos a.
Proof.
  unfold drag, lift. pose proof (sin2_cos2 a) as H. unfold Rsqr in H. split.
  - replace ((Fx * cos a + Fy * sin a) * cos a - (- Fx * sin a + Fy * cos a) * sin a)
      with (Fx * (sin a * sin a + cos a * cos a)) by ring.
    rewrite H. ring.
  - replace ((Fx * cos a + Fy * sin a) * sin a + (- Fx * sin a + Fy * cos a) * cos a)
      with (Fy * (sin a * sin a + cos a * cos a)) by ring.
    rewrite H. ring.
Qed.

(** X5. The decomposition loses nothing: from the angle, the drag and
    the lift of a row the solver's [Fx] and [Fy] are recovered by the
    opposite rotation, [Fx = Fd cos a - Fl sin a] and
    [Fy = Fd sin a + Fl cos a] at [a = AoA * PI / 180]. *)
Theorem body_forces_recovered_from_row (e : Env Thread) (s : State) (t : Thread) :
  Lookup_Thread (domain e) (SURFACE_ZONE_ID M) = Some t ->
  exists row,
    produces e s row /\
    r_Fx row = v0 (fst (Compute_Force_And_Moment (domain e) t cg)) /\
    r_Fy row = v1 (fst (Compute_Force_And_Moment (domain e) t cg)) /\
    r_Fx row = r_Fd row * cos (r_AoA row * PI / 180)
               - r_Fl row * sin (r_AoA row * PI / 180) /\
    r_Fy row = r_Fd row * sin (r_AoA row * PI / 180)
               + r_Fl row * cos (r_AoA row * PI / 180).
Proof.
  intros Hfound.
  destruct (on_demand_produces e s t Hfound) as [Hp _].
  eexists. split; [exact Hp|].
  unfold result_row.
  destruct (Compute_Force_And_Moment (domain e) t cg) as [force moment]; simpl.
  replace 180.0 with 180 by lra.
  split; [reflexivity|]. split; [reflexivity|]. apply rotation_inverse.
Qed.

(** X6. Step 7 divides by zero exactly when [LREF] is zero while
    [qinf * AREF] is not: the test guards the force coefficients, and the
    moment coefficients only as far as [qinf * AREF] goes. *)
Theorem division_by_zero_iff (Fd Fl Mx My Mz : R) :
  In 0 (snd (coefficients Fd Fl Mx My Mz)) <->
  (qinf * AREF M <> 0 /\ LREF M = 0).
Proof.
  destruct (Req_dec_T (qinf * AREF M) 0) as [Hz | Hne].
  - rewrite coefficients_degenerate by exact Hz. simpl. split.
    + intros [].
    + intros [Hne _]. contradiction.
  - rewrite coefficients_regular by exact Hne. simpl. split.
    + intros [H | [H | [H | [H | [H | []]]]]].
      * contradiction.
      * contradiction.
      * split; [exact Hne|]. apply Rmult_integral in H. destruct H; [contradiction | assumption].
      * split; [exact Hne|]. apply Rmult_integral in H. destruct H; [contradiction | assumption].
      * split; [exact Hne|]. apply Rmult_integral in H. destruct H; [contradiction | assumption].
    + intros [_ HL]. right. right. left. rewrite HL. ring.
Qed.

(** X7. With [qinf * AREF] other than zero, the resultant of the two
    force coefficients does not depend on the angle:
    [(Cd^2 + Cl^2) (q Aref)^2 = Fx^2 + Fy^2], with [Fx] and [Fy] of the
    row those the solver returns. *)
Theorem resultant_coefficient (e : Env Thread) (s : State) (t : Thread) :
  Lookup_Thread (domain e) (SURFACE_ZONE_ID M) = Some t ->
  qinf * AREF M <> 0 ->
  let force := fst (Compute_Force_And_Moment (domain e) t cg) in
  exists row,
    produces e s row /\
    r_Fx row = v0 force /\ r_Fy row = v1 force /\
    ((r_Cd row) ^ 2 + (r_Cl row) ^ 2) * (qinf * AREF M) ^ 2 =
      (r_Fx row) ^ 2 + (r_Fy row) ^ 2.
Proof.
  intros Hfound Hne force.
  destruct (on_demand_produces e s t Hfound) as [Hp _].
  eexists. split; [exact Hp|].
  subst force. unfold result_row.
  destruct (Compute_Force_And_Moment (domain e) t cg) as [force moment].
  rewrite coefficients_regular by exact Hne.
  cbn [r_Cd r_Cl r_Fx r_Fy fst Cd Cl].
  split; [reflexivity|]. split; [reflexivity|].
  rewrite <- (rotation_preserves_norm (aoa_deg (read_aoa_from_file e s) * PI / 180.0)
                (v0 force) (v1 force)).
  field. split; intros H0; apply Hne; rewrite H0; ring.
Qed.

(** *** The ledger and the console, further *)

Lemma appends_true (e : Env Thread) :
  appends e = true ->
  exists t, Lookup_Thread (domain e) (SURFACE_ZONE_ID M) = Some t /\
            results_fopen e = true.
Proof.
  unfold appends.
  destruct (Lookup_Thread (domain e) (SURFACE_ZONE_ID M)) as [t|];
    [|discriminate].
  intros Hf. exists t. split; [reflexivity | exact Hf].
Qed.

Lemma count_headers_cons_header (rows : list ResultRow) :
  count_headers (Header :: map Data rows) = 1%nat.
Proof.
  change (Header :: map Data rows) with ([Header] ++ map Data rows).
  rewrite count_headers_app, count_headers_data. reflexivity.
Qed.

(** X8. No call removes or alters a line of the ledger: after any calls
    from any state the file is what it was followed by new lines, of which
    at most one is a header and the others are the data lines of the
    invocations that appended, one each. *)
Theorem ledger_only_grows (cs : list Call) (s : State) :
  exists lines,
    aoa_results_txt (run cs s) = aoa_results_txt s ++ lines /\
    (count_headers lines <= 1)%nat /\
    List.length lines =
      (count_headers lines + List.length (filter call_appends cs))%nat.
Proof.
  destruct (Z.eq_dec (header_written s) 0) as [Hz | Hnz].
  - destruct (run_flag_unset cs s Hz) as [rows [Hn [_ Hl]]].
    destruct (existsb call_appends cs) eqn:Hex.
    + exists (Header :: map Data rows). split; [exact Hl|].
      rewrite count_headers_cons_header. simpl.
      rewrite length_map, Hn. split; [apply le_n | reflexivity].
    + exists []. split; [exact Hl|]. split; [apply Nat.le_0_l|]. simpl.
      assert (Hnil : filter call_appends cs = []).
      { clear - Hex. induction cs as [|c cs IH]; simpl in *; [reflexivity|].
        apply orb_false_iff in Hex. destruct Hex as [Hc Hcs].
        rewrite Hc. apply IH, Hcs. }
      rewrite Hnil. reflexivity.
  - destruct (run_flag_set cs s Hnz) as [rows [Hn [_ Hl]]].
    exists (map Data rows). split; [exact Hl|].
    rewrite count_headers_data, length_map, Hn.
    split; [apply Nat.le_0_l | reflexivity].
Qed.

(** X9. In a process the flag is 1 exactly when some call so far has
    appended, and 0 otherwise. *)
Theorem header_flag_tracks_appends (cs : list Call) (pre : list Line) :
  header_written (process cs pre) = (if existsb call_appends cs then 1 else 0)%Z.
Proof.
  unfold process.
  destruct (run_flag_unset cs (process_start pre) eq_refl) as [rows [_ [Hh _]]].
  exact Hh.
Qed.

(** X10. A flag that is set is never cleared, and from then on no header
    is written: any calls leave the flag and the number of headers of the
    ledger as they are. *)
Theorem set_flag_is_kept (cs : list Call) (s : State) :
  header_written s <> 0%Z ->
  header_written (run cs s) = header_written s /\
  count_headers (aoa_results_txt (run cs s)) = count_headers (aoa_results_txt s).
Proof.
  intros Hnz.
  destruct (run_flag_set cs s Hnz) as [rows [_ [Hh Hl]]].
  split; [exact Hh|].
  rewrite Hl, count_headers_app, count_headers_data. apply Nat.add_0_r.
Qed.

Lemma on_demand_append_row (e : Env Thread) (s : State) (t : Thread) :
  Lookup_Thread (domain e) (SURFACE_ZONE_ID M) = Some t ->
  results_fopen e = true ->
  header_written s <> 0%Z ->
  header_written (on_demand e s) = header_written s /\
  aoa_results_txt (on_demand e s) =
    aoa_results_txt s ++
    [Data (result_row (aoa_deg (read_aoa_from_file e s)) (domain e) t)].
Proof.
  intros Hfound Hf Hnz. unfold on_demand.
  rewrite (on_demand_found e s t Hfound), Hf.
  unfold write_results. rewrite read_aoa_header_written.
  apply Z.eqb_neq in Hnz. rewrite Hnz. simpl.
  rewrite read_aoa_header_written, read_aoa_ledger. split; reflexivity.
Qed.

Lemma on_demand_append_first_row (e : Env Thread) (s : State) (t : Thread) :
  Lookup_Thread (domain e) (SURFACE_ZONE_ID M) = Some t ->
  results_fopen e = true ->
  header_written s = 0%Z ->
  header_written (on_demand e s) = 1%Z /\
  aoa_results_txt (on_demand e s) =
    aoa_results_txt s ++
    [Header; Data (result_row (aoa_deg (read_aoa_from_file e s)) (domain e) t)].
Proof.
  intros Hfound Hf Hz. unfold on_demand.
  rewrite (on_demand_found e s t Hfound), Hf.
  unfold write_results. rewrite read_aoa_header_written, Hz. simpl.
  rewrite read_aoa_ledger, <- app_assoc. split; reflexivity.
Qed.

Lemma sweep_rows_flag_set (es : list (Env Thread)) (angles : list R) (s : State) :
  Forall2 reads_angle es angles ->
  header_written s <> 0%Z ->
  exists rows,
    aoa_results_txt (run (map On_demand es) s) = aoa_results_txt s ++ map Data rows /\
    map r_AoA rows = angles.
Proof.
  intros HF. revert s.
  induction HF as [|e a es angles [Happ [content [Hc Hscan]]] _ IH]; intros s Hnz.
  - exists []. simpl. rewrite app_nil_r. split; reflexivity.
  - destruct (appends_true e Happ) as [t [Hfound Hf]].
    destruct (on_demand_append_row e s t Hfound Hf Hnz) as [Hh Hl].
    destruct (IH (on_demand e s)) as [rows [Hl' Ha]]; [rewrite Hh; exact Hnz|].
    eexists (_ :: rows). simpl. rewrite Hl', Hl, <- app_assoc. split; [reflexivity|].
    simpl. rewrite result_row_AoA, (read_aoa_number e s content a Hc Hscan), Ha.
    reflexivity.
Qed.

(** X11. A sweep in one process, each invocation finding the zone, the
    ledger open and a number in [aoa.txt]: the process adds the header and
    then one data line for each invocation, and the first column of these
    lines is the list of the angles in the order of the invocations. *)
Theorem sweep_rows_in_order
    (es : list (Env Thread)) (angles : list R) (pre : list Line) :
  Forall2 reads_angle es angles ->
  exists rows,
    aoa_results_txt (process (map On_demand es) pre) =
      pre ++ match es with [] => [] | _ :: _ => Header :: map Data rows end /\
    map r_AoA rows = angles.
Proof.
  intros HF. unfold process.
  destruct HF as [|e a es angles [Happ [content [Hc Hscan]]] HF].
  - exists []. simpl. rewrite app_nil_r. split; reflexivity.
  - destruct (appends_true e Happ) as [t [Hfound Hf]].
    destruct (on_demand_append_first_row e (process_start pre) t Hfound Hf eq_refl)
      as [Hh Hl].
    destruct (sweep_rows_flag_set es angles (on_demand e (process_start pre)) HF)
      as [rows [Hl' Ha]]; [rewrite Hh; discriminate|].
    eexists (_ :: rows). simpl. rewrite Hl', Hl. simpl.
    rewrite <- app_assoc. split; [reflexivity|].
    simpl. rewrite result_row_AoA.
    rewrite (read_aoa_number e _ content a Hc Hscan), Ha. reflexivity.
Qed.

Lemma step_console (c : Call) (s : State) :
  exists msgs,
    console (step c s) = console s ++ msgs /\
    List.length msgs = (if is_reduction c then 1 else 0)%nat /\
    List.length (filter is_error_msg msgs) = (if call_aborts c then 1 else 0)%nat.
Proof.
  destruct c as [e faces | e faces | e]; simpl.
  - exists []. rewrite read_aoa_console, app_nil_r. repeat split.
  - exists []. rewrite read_aoa_console, app_nil_r. repeat split.
  - unfold on_demand, compute_forces_and_write, aborts.
    destruct (Lookup_Thread (domain e) (SURFACE_ZONE_ID M)) as [t|]; simpl.
    + eexists [_]. split.
      * destruct (results_fopen e);
          [rewrite write_results_console|]; rewrite read_aoa_console; reflexivity.
      * split; reflexivity.
    + eexists [_]. rewrite read_aoa_console. repeat split.
Qed.

(** X12. The console gets one message for each invocation of the
    reduction, the error message when the zone is not found and the
    summary otherwise, and none for a profile call; what was printed
    before stays. *)
Theorem one_message_per_invocation (cs : list Call) (s : State) :
  exists msgs,
    console (run cs s) = console s ++ msgs /\
    List.length msgs = List.length (filter is_reduction cs) /\
    List.length (filter is_error_msg msgs) = List.length (filter call_aborts cs).
Proof.
  revert s. induction cs as [|c cs IH]; intros s; simpl.
  - exists []. rewrite app_nil_r. repeat split.
  - destruct (step_console c s) as [m1 [Hc [Hn He]]].
    destruct (IH (step c s)) as [m2 [Hc' [Hn' He']]].
    exists (m1 ++ m2). rewrite Hc', Hc, <- app_assoc.
    split; [reflexivity|].
    rewrite filter_app, !length_app, Hn, Hn', He, He'.
    destruct (is_reduction c), (call_aborts c); split; reflexivity.
Qed.

(** X13. Over processes run one after the other on the same file, the
    file keeps what it had and gets one header for each process in which
    some invocation appended. *)
Theorem one_header_per_session (css : list (list Call)) (pre : list Line) :
  (exists lines, sessions css pre = pre ++ lines) /\
  count_headers (sessions css pre) =
    (count_headers pre + List.length (filter (existsb call_appends) css))%nat.
Proof.
  revert pre. induction css as [|cs css IH]; intros pre; simpl.
  - split; [exists []; rewrite app_nil_r; reflexivity | rewrite Nat.add_0_r; reflexivity].
  - destruct (run_flag_unset cs (process_start pre) eq_refl) as [rows [_ [_ Hl]]].
    fold (process cs pre) in Hl. simpl in Hl.
    destruct (IH (aoa_results_txt (process cs pre))) as [[lines Hp] Hc].
    split.
    + rewrite Hp, Hl, <- app_assoc. eexists. reflexivity.
    + rewrite Hc, Hl, count_headers_app.
      destruct (existsb call_appends cs); simpl List.length.
      * rewrite count_headers_cons_header. rewrite <- Nat.add_assoc. reflexivity.
      * simpl. rewrite Nat.add_0_r. reflexivity.
Qed.

(** X14. Profile calls write nothing: after any number of them the
    ledger, the flag and the console are as they were. *)
Theorem profile_calls_write_nothing (cs : list Call) (s : State) :
  Forall (fun c => is_reduction c = false) cs ->
  aoa_results_txt (run cs s) = aoa_results_txt s /\
  header_written (run cs s) = header_written s /\
  console (run cs s) = console s.
Proof.
  intros HF. revert s.
  induction HF as [|c cs Hc _ IH]; intros s; simpl; [repeat split|].
  destruct (step_profile c s Hc) as [Hh [Hl Hm]].
  destruct (IH (step c s)) as [Hl' [Hh' Hm']].
  rewrite Hl', Hh', Hm', Hl, Hh, Hm. repeat split.
Qed.

End Udf.

Arguments read_aoa_from_file {Thread} _ _ _.
Arguments result_row {Thread} _ _ _ _.
Arguments compute_forces_and_write {Thread} _ _ _ _.
Arguments on_demand {Thread} _ _ _ _.
Arguments inlet_U_profile {Thread} _ _ _ _ _.
Arguments inlet_V_profile {Thread} _ _ _ _ _.
Arguments Inlet_U {Thread} _ _.
Arguments Inlet_V {Thread} _ _.
Arguments On_demand {Thread} _.
Arguments step {Thread} _ _ _ _.
Arguments run {Thread} _ _ _ _.
Arguments process {Thread} _ _ _ _.
Arguments appends {Thread} _ _.
Arguments is_reduction {Thread} _.
Arguments call_appends {Thread} _ _.
Arguments produces {Thread} _ _ _ _ _.
Arguments aborts {Thread} _ _.
Arguments call_aborts {Thread} _ _.
Arguments sessions {Thread} _ _ _ _.
Arguments reads_angle {Thread} _ _ _ _.

(** ** The properties in the concrete setting

    The zone type is [Z], the scanner is [fscanf_decimal] and the macros
    are those of the file, or [zero_area_macros]. *)

Example scan_minus_five : scan_decimal "-5.0" = Some (-5 # 1)%Q.
Proof. reflexivity. Qed.

Example scan_blanks_fraction : scan_decimal "  2.5" = Some (5 # 2)%Q.
Proof. reflexivity. Qed.

Example scan_letters : scan_decimal "abc" = None.
Proof. reflexivity. Qed.

Example scan_empty : scan_decimal "" = None.
Proof. reflexivity. Qed.

Lemma Q2R_zero : Q2R 0 = 0.
Proof. unfold Q2R. simpl. lra. Qed.

Lemma Q2R_minus_five : Q2R (-5 # 1) = -5.
Proof. unfold Q2R. simpl. lra. Qed.

(** The angle written as [-5.0] is read back as -5. *)
Example aoa_store_round_trip (s : State) :
  aoa_deg (read_aoa_from_file fscanf_decimal (env_sweep "-5.0") s) = -5.
Proof.
  unfold read_aoa_from_file. simpl aoa_txt.
  change (fscanf_decimal "-5.0") with (Some (Q2R (-5 # 1))).
  simpl. apply Q2R_minus_five.
Qed.

Lemma source_denominator :
  qinf source_macros * AREF source_macros = 62.72.
Proof. unfold qinf. simpl. lra. Qed.

Lemma wind_axes_decomposition_witness :
  Lookup_Thread (domain (env_sweep "0")) (SURFACE_ZONE_ID source_macros) = Some 5%Z /\
  exists row,
    produces fscanf_decimal source_macros (env_sweep "0") (process_start []) row /\
    r_AoA row = 0 /\ r_Fx row = 3 /\ r_Fy row = 4 /\ r_Fd row = 3 /\ r_Fl row = 4.
Proof.
  split; [reflexivity|].
  destruct (wind_axes_decomposition Z fscanf_decimal source_macros
              (env_sweep "0") (process_start []) 5%Z eq_refl)
    as [row [Hp [Ha [Hx [Hy [_ [Hd Hl]]]]]]].
  exists row. split; [exact Hp|].
  assert (H0 : aoa_deg (on_demand fscanf_decimal source_macros
                          (env_sweep "0") (process_start [])) = 0).
  { transitivity (Q2R 0); [reflexivity | apply Q2R_zero]. }
  rewrite H0 in Ha, Hd, Hl.
  replace (0 * PI / 180) with 0 in Hd, Hl by lra.
  rewrite cos_0, sin_0 in Hd, Hl. simpl in Hx, Hy, Hd, Hl.
  repeat split; lra.
Defined.

Lemma coefficients_of_row_witness :
  Lookup_Thread (domain (env_sweep "0")) (SURFACE_ZONE_ID source_macros) = Some 5%Z /\
  qinf source_macros * AREF source_macros <> 0 /\
  qinf source_macros = 156.8 /\
  exists row,
    produces fscanf_decimal source_macros (env_sweep "0") (process_start []) row /\
    r_Mz row = 1 /\
    r_Cd row = r_Fd row / 62.72 /\
    r_Cl row = r_Fl row / 62.72 /\
    r_Cmz row = r_Mz row / 27.2832.
Proof.
  assert (Hne : qinf source_macros * AREF source_macros <> 0)
    by (rewrite source_denominator; lra).
  split; [reflexivity|]. split; [exact Hne|].
  destruct (coefficients_of_row Z fscanf_decimal source_macros
              (env_sweep "0") (process_start []) 5%Z eq_refl Hne)
    as [Hq [row [Hp [_ [_ [Hmz [Hcd [Hcl [_ [_ Hcmz]]]]]]]]]].
  split; [rewrite Hq; simpl; lra|].
  exists row. split; [exact Hp|]. split; [exact Hmz|].
  rewrite Hcd, Hcl, Hcmz. simpl.
  repeat split; f_equal; lra.
Defined.

Lemma degenerate_denominator_witness :
  Lookup_Thread (domain (env_sweep "0")) (SURFACE_ZONE_ID zero_area_macros) = Some 5%Z /\
  qinf zero_area_macros * AREF zero_area_macros = 0 /\
  snd (coefficients zero_area_macros 2 1 0 0 1) = [] /\
  exists row,
    produces fscanf_decimal zero_area_macros (env_sweep "0") (process_start []) row /\
    r_Cd row = 0 /\ r_Cl row = 0 /\ r_Cmx row = 0 /\ r_Cmy row = 0 /\ r_Cmz row = 0.
Proof.
  assert (Hz : qinf zero_area_macros * AREF zero_area_macros = 0)
    by (unfold qinf; simpl; lra).
  split; [reflexivity|]. split; [exact Hz|].
  destruct (degenerate_denominator Z fscanf_decimal zero_area_macros
              (env_sweep "0") (process_start []) 5%Z eq_refl Hz)
    as [Hlog Hrow].
  split; [apply Hlog | exact Hrow].
Defined.

Lemma drag_lift_magnitude_witness :
  Lookup_Thread (domain (env_sweep "2.5")) (SURFACE_ZONE_ID source_macros) = Some 5%Z /\
  exists row,
    produces fscanf_decimal source_macros (env_sweep "2.5") (process_start []) row /\
    r_Fx row = 3 /\ r_Fy row = 4 /\
    (r_Fd row) ^ 2 + (r_Fl row) ^ 2 = 25.
Proof.
  split; [reflexivity|].
  destruct (drag_lift_magnitude Z fscanf_decimal source_macros
              (env_sweep "2.5") (process_start []) 5%Z eq_refl)
    as [row [Hp [_ [Hx [Hy Hn]]]]].
  exists row. split; [exact Hp|].
  split; [exact Hx|]. split; [exact Hy|].
  rewrite Hn. simpl. lra.
Defined.

Lemma read_aoa_keeps_or_updates_witness :
  aoa_txt env_no_aoa = None /\
  read_aoa_from_file fscanf_decimal env_no_aoa (set_aoa_deg 2.5 (process_start []))
    = set_aoa_deg 2.5 (process_start []) /\
  aoa_deg (read_aoa_from_file fscanf_decimal env_no_aoa (process_start [])) = 0.0 /\
  fscanf_decimal "abc" = None /\
  read_aoa_from_file fscanf_decimal (env_sweep "abc") (set_aoa_deg 2.5 (process_start []))
    = set_aoa_deg 2.5 (process_start []) /\
  fscanf_decimal "-5.0" = Some (Q2R (-5 # 1)) /\
  aoa_deg (read_aoa_from_file fscanf_decimal (env_sweep "-5.0")
             (set_aoa_deg 2.5 (process_start []))) = Q2R (-5 # 1).
Proof.
  split; [reflexivity|].
  destruct (read_aoa_keeps_or_updates Z fscanf_decimal env_no_aoa
              (set_aoa_deg 2.5 (process_start []))) as [Hkeep _].
  destruct (Hkeep (or_introl eq_refl)) as [Hsame Hfirst].
  split; [exact Hsame|]. split; [apply (Hfirst [])|].
  split; [reflexivity|].
  destruct (read_aoa_keeps_or_updates Z fscanf_decimal (env_sweep "abc")
              (set_aoa_deg 2.5 (process_start []))) as [Hkeep' _].
  destruct (Hkeep' (or_intror (ex_intro _ "abc"%string (conj eq_refl eq_refl))))
    as [Hsame' _].
  split; [exact Hsame'|].
  split; [reflexivity|].
  destruct (read_aoa_keeps_or_updates Z fscanf_decimal (env_sweep "-5.0")
              (set_aoa_deg 2.5 (process_start []))) as [_ [Hupd _]].
  apply (Hupd "-5.0"%string (Q2R (-5 # 1)) eq_refl eq_refl).
Defined.

Lemma header_once_per_process_witness :
  Forall (fun c => is_reduction c = false)
    [Inlet_U (env_sweep "0") [1; 2; 3]%Z; Inlet_V (env_sweep "0") [1; 2; 3]%Z] /\
  appends source_macros (env_sweep "0") = true /\
  (exists row,
     aoa_results_txt
       (on_demand fscanf_decimal source_macros (env_sweep "0")
          (process fscanf_decimal source_macros
             [Inlet_U (env_sweep "0") [1; 2; 3]%Z;
              Inlet_V (env_sweep "0") [1; 2; 3]%Z] [Header]))
     = [Header] ++ [Header; Data row]) /\
  count_headers
    (aoa_results_txt
       (process fscanf_decimal source_macros
          ([Inlet_U (env_sweep "0") [1; 2; 3]%Z;
            Inlet_V (env_sweep "0") [1; 2; 3]%Z]
           ++ On_demand (env_sweep "0")
              :: [On_demand (env_unwritable "2.5"); On_demand (env_sweep "5")])
          [Header]))
  = (count_headers [Header] + 1)%nat.
Proof.
  assert (Hinlet : Forall (fun c : Call Z => is_reduction c = false)
                     [Inlet_U (env_sweep "0") [1; 2; 3]%Z;
                      Inlet_V (env_sweep "0") [1; 2; 3]%Z])
    by (repeat constructor).
  split; [exact Hinlet|]. split; [reflexivity|].
  destruct (header_once_per_process Z fscanf_decimal source_macros
              [Inlet_U (env_sweep "0") [1; 2; 3]%Z;
               Inlet_V (env_sweep "0") [1; 2; 3]%Z]
              (env_sweep "0")
              [On_demand (env_unwritable "2.5"); On_demand (env_sweep "5")]
              [Header] Hinlet eq_refl) as [_ [Hfirst [_ Hcount]]].
  split; [exact Hfirst | exact Hcount].
Defined.

Lemma flag_set_only_with_header_witness :
  Forall (fun c => call_appends source_macros c = false)
    [On_demand (env_unwritable "0"); Inlet_U (env_sweep "2.5") [1]%Z;
     On_demand (env_no_zone "2.5")] /\
  appends source_macros (env_sweep "5") = true /\
  header_written
    (process fscanf_decimal source_macros
       [On_demand (env_unwritable "0"); Inlet_U (env_sweep "2.5") [1]%Z;
        On_demand (env_no_zone "2.5")] []) = 0%Z /\
  aoa_results_txt
    (process fscanf_decimal source_macros
       [On_demand (env_unwritable "0"); Inlet_U (env_sweep "2.5") [1]%Z;
        On_demand (env_no_zone "2.5")] []) = [] /\
  header_written
    (process fscanf_decimal source_macros
       ([On_demand (env_unwritable "0"); Inlet_U (env_sweep "2.5") [1]%Z;
         On_demand (env_no_zone "2.5")] ++ [On_demand (env_sweep "5")]) []) = 1%Z /\
  exists row,
    aoa_results_txt
      (process fscanf_decimal source_macros
         ([On_demand (env_unwritable "0"); Inlet_U (env_sweep "2.5") [1]%Z;
           On_demand (env_no_zone "2.5")] ++ [On_demand (env_sweep "5")]) [])
    = [] ++ [Header; Data row].
Proof.
  assert (Hnone : Forall (fun c : Call Z => call_appends source_macros c = false)
                    [On_demand (env_unwritable "0"); Inlet_U (env_sweep "2.5") [1]%Z;
                     On_demand (env_no_zone "2.5")])
    by (repeat constructor).
  split; [exact Hnone|]. split; [reflexivity|].
  destruct (flag_set_only_with_header Z fscanf_decimal source_macros
              [On_demand (env_unwritable "0"); Inlet_U (env_sweep "2.5") [1]%Z;
               On_demand (env_no_zone "2.5")] (env_sweep "5") [])
    as [_ [_ Hlast]].
  exact (Hlast Hnone eq_refl).
Defined.

Lemma zone_not_found_aborts_witness :
  Lookup_Thread (domain (env_no_zone "2.5")) (SURFACE_ZONE_ID source_macros) = None /\
  console
    (fst (compute_forces_and_write fscanf_decimal source_macros
            (env_no_zone "2.5") (process_start [Header])))
  = [] ++ [MsgZoneNotFound 5] /\
  aoa_results_txt
    (fst (compute_forces_and_write fscanf_decimal source_macros
            (env_no_zone "2.5") (process_start [Header])))
  = [Header] /\
  snd (compute_forces_and_write fscanf_decimal source_macros
         (env_no_zone "2.5") (process_start [Header])) = None.
Proof.
  split; [reflexivity|].
  destruct (zone_not_found_aborts Z fscanf_decimal source_macros
              (env_no_zone "2.5") (process_start [Header]) eq_refl)
    as [Hmsg [Hledger [_ [_ [Hret _]]]]].
  split; [exact Hmsg|]. split; [exact Hledger | exact Hret].
Defined.

Lemma unwritable_ledger_is_silent_witness :
  Lookup_Thread (domain (env_unwritable "2.5")) (SURFACE_ZONE_ID source_macros)
    = Some 5%Z /\
  results_fopen (env_unwritable "2.5") = false /\
  aoa_results_txt
    (fst (compute_forces_and_write fscanf_decimal source_macros
            (env_unwritable "2.5") (process_start [])))
  = [] /\
  header_written
    (fst (compute_forces_and_write fscanf_decimal source_macros
            (env_unwritable "2.5") (process_start [])))
  = 0%Z /\
  snd (compute_forces_and_write fscanf_decimal source_macros
         (env_unwritable "2.5") (process_start [])) = None.
Proof.
  split; [reflexivity|]. split; [reflexivity|].
  destruct (unwritable_ledger_is_silent Z fscanf_decimal source_macros
              (env_unwritable "2.5") (process_start []) 5%Z eq_refl eq_refl)
    as [_ [Hledger [Hflag [Hret _]]]].
  split; [exact Hledger|]. split; [exact Hflag | exact Hret].
Defined.

(** ** Where the code departs from the claims *)

(** C5 fails. A first process appends one row to an empty ledger and
    leaves a header and a data line.  A second process, started on that
    ledger, which is not empty, appends one row: it writes the header
    again, as the third line, and the file holds two headers. *)
Lemma header_repeated_after_restart :
  aoa_results_txt (process fscanf_decimal source_macros [On_demand (env_sweep "0")] []) <> [] /\
  count_headers
    (aoa_results_txt (process fscanf_decimal source_macros [On_demand (env_sweep "0")] []))
  = 1%nat /\
  count_headers
    (aoa_results_txt
       (process fscanf_decimal source_macros [On_demand (env_sweep "2.5")]
          (aoa_results_txt
             (process fscanf_decimal source_macros [On_demand (env_sweep "0")] []))))
  = 2%nat /\
  nth_error
    (aoa_results_txt
       (process fscanf_decimal source_macros [On_demand (env_sweep "2.5")]
          (aoa_results_txt
             (process fscanf_decimal source_macros [On_demand (env_sweep "0")] []))))
    2
  = Some Header.
Proof.
  split; [discriminate|]. repeat split.
Qed.

(** C7 fails in one part. With zone 5 missing the invocation prints its
    error message, but it hands back no value: there is no signal other
    than zero for the driver. *)
Lemma zone_not_found_no_signal :
  Lookup_Thread (domain (env_no_zone "2.5")) (SURFACE_ZONE_ID source_macros) = None /\
  console
    (fst (compute_forces_and_write fscanf_decimal source_macros
            (env_no_zone "2.5") (process_start [])))
  = [MsgZoneNotFound 5] /\
  ~ nonzero_signal
      (snd (compute_forces_and_write fscanf_decimal source_macros
              (env_no_zone "2.5") (process_start []))).
Proof.
  split; [reflexivity|]. split; [reflexivity|].
  intros [z [Hz _]]. discriminate Hz.
Qed.

(** C8 fails. With the ledger failing to open, the row is not written
    and nothing the invocation prints or hands back reports a failure. *)
Lemma unwritable_ledger_not_reported :
  results_fopen (env_unwritable "2.5") = false /\
  aoa_results_txt
    (fst (compute_forces_and_write fscanf_decimal source_macros
            (env_unwritable "2.5") (process_start [])))
  = [] /\
  ~ failure_reported
      (console
         (fst (compute_forces_and_write fscanf_decimal source_macros
                 (env_unwritable "2.5") (process_start []))))
      (snd (compute_forces_and_write fscanf_decimal source_macros
              (env_unwritable "2.5") (process_start []))).
Proof.
  split; [reflexivity|]. split; [reflexivity|].
  intros [Hmsg | [z [Hz _]]]; discriminate.
Qed.

(** ** The further properties in the concrete setting *)

Lemma Q2R_five_halves : Q2R (5 # 2) = 2.5.
Proof. unfold Q2R. simpl. lra. Qed.

Lemma read_aoa_last_read_wins_witness :
  aoa_txt (env_unwritable "2.5") = aoa_txt (env_sweep "2.5") /\
  read_aoa_from_file fscanf_decimal (env_unwritable "2.5")
    (read_aoa_from_file fscanf_decimal (env_sweep "2.5") (process_start []))
  = read_aoa_from_file fscanf_decimal (env_sweep "2.5") (process_start []) /\
  fscanf_decimal "2.5" = Some (Q2R (5 # 2)) /\
  read_aoa_from_file fscanf_decimal (env_sweep "2.5")
    (read_aoa_from_file fscanf_decimal (env_sweep "0") (process_start []))
  = read_aoa_from_file fscanf_decimal (env_sweep "2.5") (process_start []).
Proof.
  split; [reflexivity|].
  destruct (read_aoa_last_read_wins Z fscanf_decimal
              (env_sweep "2.5") (env_unwritable "2.5") (process_start []))
    as [Hsame _].
  split; [exact (Hsame eq_refl)|]. split; [reflexivity|].
  destruct (read_aoa_last_read_wins Z fscanf_decimal
              (env_sweep "0") (env_sweep "2.5") (process_start []))
    as [_ Hlast].
  exact (Hlast "2.5"%string (Q2R (5 # 2)) eq_refl eq_refl).
Defined.


Lemma inlet_speed_is_UINF_witness :
  map fst (snd (inlet_U_profile fscanf_decimal source_macros
                  (env_sweep "2.5") [1; 2]%Z (process_start []))) = [1; 2]%Z /\
  In (1%Z, 16.0 * cos (Q2R (5 # 2) * PI / 180.0))
     (snd (inlet_U_profile fscanf_decimal source_macros
             (env_sweep "2.5") [1; 2]%Z (process_start []))) /\
  In (2%Z, 16.0 * sin (Q2R (5 # 2) * PI / 180.0))
     (snd (inlet_V_profile fscanf_decimal source_macros
             (env_sweep "2.5") [1; 2]%Z
             (fst (inlet_U_profile fscanf_decimal source_macros
                     (env_sweep "2.5") [1; 2]%Z (process_start []))))) /\
  (16.0 * cos (Q2R (5 # 2) * PI / 180.0)) ^ 2
  + (16.0 * sin (Q2R (5 # 2) * PI / 180.0)) ^ 2 = UINF source_macros ^ 2.
Proof.
  destruct (inlet_speed_is_UINF Z fscanf_decimal source_macros
              (env_sweep "2.5") [1; 2]%Z (process_start []))
    as [Hfaces [_ Hspeed]].
  assert (Hu : In (1%Z, 16.0 * cos (Q2R (5 # 2) * PI / 180.0))
                 (snd (inlet_U_profile fscanf_decimal source_macros
                         (env_sweep "2.5") [1; 2]%Z (process_start []))))
    by (left; reflexivity).
  assert (Hv : In (2%Z, 16.0 * sin (Q2R (5 # 2) * PI / 180.0))
                 (snd (inlet_V_profile fscanf_decimal source_macros
                         (env_sweep "2.5") [1; 2]%Z
                         (fst (inlet_U_profile fscanf_decimal source_macros
                                 (env_sweep "2.5") [1; 2]%Z (process_start []))))))
    by (right; left; reflexivity).
  split; [exact Hfaces|]. split; [exact Hu|]. split; [exact Hv|].
  exact (Hspeed _ _ _ _ Hu Hv).
Defined.

Lemma drag_is_along_inlet_velocity_witness :
  Lookup_Thread (domain (env_sweep "2.5")) (SURFACE_ZONE_ID source_macros) = Some 5%Z /\
  exists row,
    produces fscanf_decimal source_macros (env_sweep "2.5")
      (fst (inlet_V_profile fscanf_decimal source_macros (env_sweep "2.5") [1]%Z
              (fst (inlet_U_profile fscanf_decimal source_macros
                      (env_sweep "2.5") [1]%Z (process_start []))))) row /\
    r_Fx row = 3 /\ r_Fy row = 4 /\
    UINF source_macros * r_Fd row =
      r_Fx row * (16.0 * cos (Q2R (5 # 2) * PI / 180.0))
      + r_Fy row * (16.0 * sin (Q2R (5 # 2) * PI / 180.0)).
Proof.
  split; [reflexivity|].
  destruct (drag_is_along_inlet_velocity Z fscanf_decimal source_macros
              (env_sweep "2.5") [1]%Z (process_start []) 5%Z eq_refl)
    as [row [Hp [Hx [Hy Hproj]]]].
  exists row. split; [exact Hp|].
  split; [exact Hx|]. split; [exact Hy|].
  apply (Hproj 1%Z 1%Z); left; reflexivity.
Defined.

Lemma body_forces_recovered_from_row_witness :
  Lookup_Thread (domain (env_sweep "2.5")) (SURFACE_ZONE_ID source_macros) = Some 5%Z /\
  exists row,
    produces fscanf_decimal source_macros (env_sweep "2.5") (process_start []) row /\
    r_Fx row = 3 /\ r_Fy row = 4 /\
    r_Fx row = r_Fd row * cos (r_AoA row * PI / 180)
               - r_Fl row * sin (r_AoA row * PI / 180) /\
    r_Fy row = r_Fd row * sin (r_AoA row * PI / 180)
               + r_Fl row * cos (r_AoA row * PI / 180).
Proof.
  split; [reflexivity|].
  apply (body_forces_recovered_from_row Z fscanf_decimal source_macros
           (env_sweep "2.5") (process_start []) 5%Z).
  reflexivity.
Defined.

Lemma division_by_zero_iff_witness :
  qinf zero_length_macros * AREF zero_length_macros <> 0 /\
  LREF zero_length_macros = 0 /\
  In 0 (snd (coefficients zero_length_macros 2 1 0 0 1)).
Proof.
  assert (Hne : qinf zero_length_macros * AREF zero_length_macros <> 0)
    by (unfold qinf; simpl; lra).
  assert (HL : LREF zero_length_macros = 0) by (simpl; lra).
  split; [exact Hne|]. split; [exact HL|].
  apply (proj2 (division_by_zero_iff zero_length_macros 2 1 0 0 1)).
  split; [exact Hne | exact HL].
Defined.

Lemma resultant_coefficient_witness :
  Lookup_Thread (domain (env_sweep "2.5")) (SURFACE_ZONE_ID source_macros) = Some 5%Z /\
  qinf source_macros * AREF source_macros <> 0 /\
  exists row,
    produces fscanf_decimal source_macros (env_sweep "2.5") (process_start []) row /\
    r_Fx row = 3 /\ r_Fy row = 4 /\
    ((r_Cd row) ^ 2 + (r_Cl row) ^ 2)
    * (qinf source_macros * AREF source_macros) ^ 2 =
      (r_Fx row) ^ 2 + (r_Fy row) ^ 2.
Proof.
  assert (Hne : qinf source_macros * AREF source_macros <> 0)
    by (rewrite source_denominator; lra).
  split; [reflexivity|]. split; [exact Hne|].
  apply (resultant_coefficient Z fscanf_decimal source_macros
           (env_sweep "2.5") (process_start []) 5%Z eq_refl Hne).
Defined.

Lemma set_flag_is_kept_witness :
  header_written (set_header_written 1 (process_start [Header])) <> 0%Z /\
  header_written
    (run fscanf_decimal source_macros
       [On_demand (env_sweep "0"); Inlet_U (env_sweep "2.5") [1]%Z;
        On_demand (env_sweep "2.5")]
       (set_header_written 1 (process_start [Header])))
  = header_written (set_header_written 1 (process_start [Header])) /\
  count_headers
    (aoa_results_txt
       (run fscanf_decimal source_macros
          [On_demand (env_sweep "0"); Inlet_U (env_sweep "2.5") [1]%Z;
           On_demand (env_sweep "2.5")]
          (set_header_written 1 (process_start [Header]))))
  = count_headers (aoa_results_txt (set_header_written 1 (process_start [Header]))).
Proof.
  assert (Hnz : header_written (set_header_written 1 (process_start [Header])) <> 0%Z)
    by discriminate.
  split; [exact Hnz|].
  apply (set_flag_is_kept Z fscanf_decimal source_macros
           [On_demand (env_sweep "0"); Inlet_U (env_sweep "2.5") [1]%Z;
            On_demand (env_sweep "2.5")]
           (set_header_written 1 (process_start [Header])) Hnz).
Defined.

Lemma sweep_rows_in_order_witness :
  Forall2 (reads_angle fscanf_decimal source_macros)
    [env_sweep "0"; env_sweep "2.5"] [Q2R 0; Q2R (5 # 2)] /\
  exists rows,
    aoa_results_txt
      (process fscanf_decimal source_macros
         (map On_demand [env_sweep "0"; env_sweep "2.5"]) [])
    = [] ++ Header :: map Data rows /\
    map r_AoA rows = [Q2R 0; Q2R (5 # 2)].
Proof.
  assert (HF : Forall2 (reads_angle fscanf_decimal source_macros)
                 [env_sweep "0"; env_sweep "2.5"] [Q2R 0; Q2R (5 # 2)]).
  { constructor; [|constructor; [|constructor]].
    - split; [reflexivity|]. exists "0"%string. split; reflexivity.
    - split; [reflexivity|]. exists "2.5"%string. split; reflexivity. }
  split; [exact HF|].
  apply (sweep_rows_in_order Z fscanf_decimal source_macros
           [env_sweep "0"; env_sweep "2.5"] [Q2R 0; Q2R (5 # 2)] [] HF).
Defined.

Lemma profile_calls_write_nothing_witness :
  Forall (fun c : Call Z => is_reduction c = false)
    [Inlet_U (env_sweep "0") [1; 2]%Z; Inlet_V (env_sweep "0") [1; 2]%Z;
     Inlet_U (env_sweep "2.5") [1; 2]%Z] /\
  aoa_results_txt
    (run fscanf_decimal source_macros
       [Inlet_U (env_sweep "0") [1; 2]%Z; Inlet_V (env_sweep "0") [1; 2]%Z;
        Inlet_U (env_sweep "2.5") [1; 2]%Z] (process_start [Header]))
  = aoa_results_txt (process_start [Header]) /\
  header_written
    (run fscanf_decimal source_macros
       [Inlet_U (env_sweep "0") [1; 2]%Z; Inlet_V (env_sweep "0") [1; 2]%Z;
        Inlet_U (env_sweep "2.5") [1; 2]%Z] (process_start [Header]))
  = header_written (process_start [Header]) /\
  console
    (run fscanf_decimal source_macros
       [Inlet_U (env_sweep "0") [1; 2]%Z; Inlet_V (env_sweep "0") [1; 2]%Z;
        Inlet_U (env_sweep "2.5") [1; 2]%Z] (process_start [Header]))
  = console (process_start [Header]).
Proof.
  assert (HF : Forall (fun c : Call Z => is_reduction c = false)
                 [Inlet_U (env_sweep "0") [1; 2]%Z; Inlet_V (env_sweep "0") [1; 2]%Z;
                  Inlet_U (env_sweep "2.5") [1; 2]%Z])
    by (repeat constructor).
  split; [exact HF|].
  apply (profile_calls_write_nothing Z fscanf_decimal source_macros
           [Inlet_U (env_sweep "0") [1; 2]%Z; Inlet_V (env_sweep "0") [1; 2]%Z;
            Inlet_U (env_sweep "2.5") [1; 2]%Z] (process_start [Header]) HF).
Defined.

(** X15. With the macros as the file has them the test of step 7 never
    fails: [qinf * AREF] is 62.72, no division is by zero, and every row
    has [Cd = Fd / 62.72], [Cl = Fl / 62.72] and the moment coefficients
    equal to the moments over 27.2832. *)
Theorem shipped_macros_never_clamp
    (Thread : Type) (fscanf_lf : string -> option R)
    (e : Env Thread) (s : State) (t : Thread) :
  Lookup_Thread (domain e) (SURFACE_ZONE_ID source_macros) = Some t ->
  (forall Fd Fl Mx My Mz,
     ~ In 0 (snd (coefficients source_macros Fd Fl Mx My Mz))) /\
  exists row,
    produces fscanf_lf source_macros e s row /\
    r_Cd row = r_Fd row / 62.72 /\
    r_Cl row = r_Fl row / 62.72 /\
    r_Cmx row = r_Mx row / 27.2832 /\
    r_Cmy row = r_My row / 27.2832 /\
    r_Cmz row = r_Mz row / 27.2832.
Proof.
  intros Hfound.
  assert (Hne : qinf source_macros * AREF source_macros <> 0)
    by (rewrite source_denominator; lra).
  assert (HL : qinf source_macros * AREF source_macros * LREF source_macros = 27.2832)
    by (rewrite source_denominator; simpl; lra).
  split.
  - intros Fd Fl Mx My Mz.
    rewrite coefficients_regular by exact Hne. cbn [snd In].
    rewrite HL, source_denominator.
    intros [H | [H | [H | [H | [H | []]]]]]; lra.
  - destruct (on_demand_produces Thread fscanf_lf source_macros e s t Hfound)
      as [Hp _].
    eexists. split; [exact Hp|].
    unfold result_row.
    destruct (Compute_Force_And_Moment (domain e) t (cg source_macros))
      as [force moment].
    rewrite coefficients_regular by exact Hne.
    cbn [r_Cd r_Cl r_Cmx r_Cmy r_Cmz r_Fd r_Fl r_Mx r_My r_Mz fst Cd Cl Cmx Cmy Cmz].
    rewrite HL, source_denominator. repeat split.
Qed.

Lemma shipped_macros_never_clamp_witness :
  Lookup_Thread (domain (env_sweep "2.5")) (SURFACE_ZONE_ID source_macros) = Some 5%Z /\
  ~ In 0 (snd (coefficients source_macros 2 1 0 0 1)) /\
  exists row,
    produces fscanf_decimal source_macros (env_sweep "2.5") (process_start []) row /\
    r_Cd row = r_Fd row / 62.72 /\
    r_Cl row = r_Fl row / 62.72 /\
    r_Cmx row = r_Mx row / 27.2832 /\
    r_Cmy row = r_My row / 27.2832 /\
    r_Cmz row = r_Mz row / 27.2832.
Proof.
  split; [reflexivity|].
  destruct (shipped_macros_never_clamp Z fscanf_decimal
              (env_sweep "2.5") (process_start []) 5%Z eq_refl) as [Hlog Hrow].
  split; [apply Hlog | exact Hrow].
Defined.

Lemma first_run_without_aoa_file_witness :
  aoa_txt env_no_aoa = None /\
  (forall f u,
     In (f, u) (snd (inlet_U_profile fscanf_decimal source_macros
                       env_no_aoa [1; 2]%Z (process_start []))) ->
     u = UINF source_macros) /\
  exists row,
    produces fscanf_decimal source_macros env_no_aoa (process_start []) row /\
    r_AoA row = 0 /\ r_Fd row = r_Fx row /\ r_Fl row = r_Fy row.
Proof.
  split; [reflexivity|].
  destruct (first_run_without_aoa_file Z fscanf_decimal source_macros
              env_no_aoa [1; 2]%Z [] eq_refl) as [HU [_ Hrow]].
  split; [exact HU|].
  exact (Hrow 5%Z eq_refl).
Defined.
